(** * SinkTravel: cart, session gate and account handlers of [src/server.js]

    A shallow embedding of the final server snapshot of [src/server.js]
    (the one that defines [Cart], [CartItem], [requireAuth] and the
    [/cart], [/profile/update], [/register] and [/login] routes).

    - Rows of the Sequelize models are records, tables are lists of rows in
      insertion order ([findOne] returns the first matching row).
    - A handler is a function from the database to a response and the
      database it leaves behind.  Storage calls live in a small monad in
      which a thrown error keeps the writes made before it: the handlers
      open no transaction, so nothing is rolled back when [catch] runs.
    - What the storage layer enforces beyond the declarations visible in the
      source (foreign keys, the unique pair of the through table) and the
      [bcrypt] functions are parameters of the development.
    - [price] is a [DataTypes.FLOAT] and the cart total is computed with
      JavaScript numbers, hence binary64 floats here. *)

From Stdlib Require Import ZArith List String Bool Lia Floats Uint63.
Import ListNotations.

Open Scope string_scope.
Open Scope list_scope.
Open Scope Z_scope.

(** ** Rows and tables *)

(** [sequelize.define('User', ...)]; [username] is declared [unique]. *)
Record User := mkUser {
  user_id : Z;
  username : string;
  password : string;
  role : string
}.

(** [sequelize.define('Tour', ...)]. The city, hotel and client references
    are not read by any handler modelled here. *)
Record Tour := mkTour {
  tour_id : Z;
  name : string;
  description : string;
  price : float;
  duration : Z
}.

(** [sequelize.define('Cart', ...)] with the [UserId] column added by
    [Cart.belongsTo(User)]. *)
Record Cart := mkCart {
  cart_id : Z;
  UserId : Z
}.

(** [sequelize.define('CartItem', ...)], the through table of
    [Cart.belongsToMany(Tour, { through: CartItem })]. *)
Record CartItem := mkCartItem {
  item_id : Z;
  quantity : Z;
  CartId : Z;
  TourId : Z
}.

(** The tables together with the auto-increment counters. *)
Record DB := mkDB {
  users : list User;
  tours : list Tour;
  carts : list Cart;
  cartItems : list CartItem;
  nextUserId : Z;
  nextCartId : Z;
  nextItemId : Z
}.

Definition set_users (db : DB) (us : list User) (n : Z) : DB :=
  mkDB us (tours db) (carts db) (cartItems db) n (nextCartId db) (nextItemId db).

Definition set_carts (db : DB) (cs : list Cart) (n : Z) : DB :=
  mkDB (users db) (tours db) cs (cartItems db) (nextUserId db) n (nextItemId db).

Definition set_cartItems (db : DB) (ls : list CartItem) (n : Z) : DB :=
  mkDB (users db) (tours db) (carts db) ls (nextUserId db) (nextCartId db) n.

(** What the storage layer checks on writes to the through table and to
    [Carts]: whether foreign keys are enforced and whether the pair
    [(CartId, TourId)] is unique.  Neither is visible in [src/server.js]. *)
Record StorageOptions := mkStorageOptions {
  foreignKeys : bool;
  throughUnique : bool
}.

(** ** Sessions and responses *)

(** [req.session.user = { id, username, role }]. *)
Record SessionUser := mkSessionUser {
  session_id : Z;
  session_username : string;
  session_role : string
}.

Definition Session := option SessionUser.

(** One element of [cart.Tours]: the tour with [tour.CartItem.quantity]. *)
Record CartRow := mkCartRow {
  row_tour : Tour;
  row_quantity : Z
}.

(** The views the handlers render, with the locals they pass. *)
Inductive Page :=
| CartPage (items : list CartRow) (total : float) (user : SessionUser) (title : string)
| ErrorPage (message title : string)
| LoginPage (error title : string)
| RegisterPage (error title : string)
| ProfilePage (user : option User) (error title : string).

Inductive Response :=
| Redirect (url : string)
| Json (status : Z) (success : bool) (message : string)
| Render (status : Z) (page : Page).

Definition isRedirect (r : Response) : bool :=
  match r with Redirect _ => true | _ => false end.

Definition isJson (r : Response) : bool :=
  match r with Json _ _ _ => true | _ => false end.

(** A JSON payload with [success: false]. *)
Definition isJsonFailure (r : Response) : bool :=
  match r with Json _ false _ => true | _ => false end.

(** ** The storage monad *)

Inductive Exn :=
| UniqueConstraintError
| ForeignKeyConstraintError
| TypeError
| BcryptError.

Inductive Outcome (A : Type) :=
| Returned (a : A)
| Thrown (e : Exn).

Arguments Returned {A} a.
Arguments Thrown {A} e.

Definition Store (A : Type) : Type := DB -> Outcome A * DB.

Definition ret {A} (a : A) : Store A := fun db => (Returned a, db).

Definition throw {A} (e : Exn) : Store A := fun db => (Thrown e, db).

Definition bind {A B} (m : Store A) (k : A -> Store B) : Store B :=
  fun db =>
    match m db with
    | (Returned a, db') => k a db'
    | (Thrown e, db') => (Thrown e, db')
    end.

Notation "x <- m ;; k" := (bind m (fun x => k))
  (at level 61, m at next level, right associativity).

(** [try { ... } catch (error) { ... }] around a handler body. *)
Definition try_catch {A} (body : Store A) (onError : Exn -> A)
  : DB -> A * DB :=
  fun db =>
    match body db with
    | (Returned r, db') => (r, db')
    | (Thrown e, db') => (onError e, db')
    end.

(** JavaScript truthiness of a string: the empty string is falsy. *)
Definition truthy (s : string) : bool := negb (s =? "")%string.

(** ** Storage calls on carts and cart items *)

Definition user_exists (db : DB) (uid : Z) : bool :=
  existsb (fun u => user_id u =? uid) (users db).

Definition tour_exists (db : DB) (tid : Z) : bool :=
  existsb (fun t => tour_id t =? tid) (tours db).

Definition cart_exists (db : DB) (cid : Z) : bool :=
  existsb (fun c => cart_id c =? cid) (carts db).

Definition line_matches (cid tid : Z) (l : CartItem) : bool :=
  (CartId l =? cid) && (TourId l =? tid).

(** [Cart.findOne({ where: { UserId: userId } })] as a read of the tables. *)
Definition userCart (db : DB) (userId : Z) : option Cart :=
  find (fun c => UserId c =? userId) (carts db).

(** The cart lines of the pair (user's cart, tour). *)
Definition linesFor (db : DB) (userId tourId : Z) : list CartItem :=
  match userCart db userId with
  | Some c => filter (line_matches (cart_id c) tourId) (cartItems db)
  | None => []
  end.

(** The row that an add inserts when the cart holds no line for the tour. *)
Definition added_line (db : DB) (c : Cart) (tid : Z) : CartItem :=
  mkCartItem (nextItemId db) 1 (cart_id c) tid.

(** Rows do not refer to cart ids that are still to be allocated. *)
Definition db_wf (db : DB) : bool :=
  forallb (fun c => cart_id c <? nextCartId db) (carts db)
  && forallb (fun l => CartId l <? nextCartId db) (cartItems db).

Section CartEngine.

Variable opts : StorageOptions.

Definition Cart_findOne (userId : Z) : Store (option Cart) :=
  fun db => (Returned (userCart db userId), db).

(** [Cart.create({ UserId: userId })]. *)
Definition Cart_create (userId : Z) : Store Cart :=
  fun db =>
    if foreignKeys opts && negb (user_exists db userId) then
      (Thrown ForeignKeyConstraintError, db)
    else
      let c := mkCart (nextCartId db) userId in
      (Returned c, set_carts db (carts db ++ [c]) (nextCartId db + 1)).

(** [CartItem.findOne({ where: { CartId, TourId } })]. *)
Definition CartItem_findOne (cartId tourId : Z) : Store (option CartItem) :=
  fun db => (Returned (find (line_matches cartId tourId) (cartItems db)), db).

(** [CartItem.create({ CartId, TourId })]; [quantity] takes its
    [defaultValue: 1]. *)
Definition CartItem_create (cartId tourId : Z) : Store CartItem :=
  fun db =>
    if foreignKeys opts
       && negb (cart_exists db cartId && tour_exists db tourId) then
      (Thrown ForeignKeyConstraintError, db)
    else if throughUnique opts
            && existsb (line_matches cartId tourId) (cartItems db) then
      (Thrown UniqueConstraintError, db)
    else
      let l := mkCartItem (nextItemId db) 1 cartId tourId in
      (Returned l, set_cartItems db (cartItems db ++ [l]) (nextItemId db + 1)).

Definition set_quantity (itemId q : Z) (l : CartItem) : CartItem :=
  if item_id l =? itemId then mkCartItem (item_id l) q (CartId l) (TourId l)
  else l.

(** [cartItem.update({ quantity })]: an UPDATE of the row with the
    instance's primary key. *)
Definition cartItem_update (cartItem : CartItem) (q : Z) : Store unit :=
  fun db =>
    (Returned tt,
     set_cartItems db (map (set_quantity (item_id cartItem) q) (cartItems db))
                   (nextItemId db)).

(** [CartItem.destroy({ where: { id: itemId } })]. *)
Definition CartItem_destroy (itemId : Z) : Store unit :=
  fun db =>
    (Returned tt,
     set_cartItems db
       (filter (fun l => negb (item_id l =? itemId)) (cartItems db))
       (nextItemId db)).

(** ** The session gate *)

(** [requireAuth]: without [req.session.user] the request is redirected
    and [next] does not run. *)
Definition requireAuth (session : Session)
    (next : SessionUser -> DB -> Response * DB) : DB -> Response * DB :=
  match session with
  | None => fun db => (Redirect "/login", db)
  | Some user => next user
  end.

(** ** POST /cart/add/:tourId *)

Definition cart_add_ok : Response :=
  Json 200 true "Тур добавлен в корзину".

Definition cart_add_failed : Response :=
  Json 500 false "Ошибка добавления в корзину".

Definition cart_add_body (userId tourId : Z) : Store Response :=
  found <- Cart_findOne userId ;;
  cart <- match found with
          | Some c => ret c
          | None => Cart_create userId
          end ;;
  cartItem <- CartItem_findOne (cart_id cart) tourId ;;
  _ <- match cartItem with
       | Some item => cartItem_update item (quantity item + 1)
       | None => _ <- CartItem_create (cart_id cart) tourId ;; ret tt
       end ;;
  ret cart_add_ok.

(** The handler body from [CartItem.findOne] on, for a cart in hand. *)
Definition cart_add_line (cart : Cart) (tourId : Z) : Store Response :=
  cartItem <- CartItem_findOne (cart_id cart) tourId ;;
  _ <- match cartItem with
       | Some item => cartItem_update item (quantity item + 1)
       | None => _ <- CartItem_create (cart_id cart) tourId ;; ret tt
       end ;;
  ret cart_add_ok.

Definition post_cart_add (session : Session) (tourId : Z)
  : DB -> Response * DB :=
  requireAuth session (fun user =>
    try_catch (cart_add_body (session_id user) tourId)
              (fun _ => cart_add_failed)).

(** ** POST /cart/remove/:itemId *)

Definition cart_remove_ok : Response :=
  Json 200 true "Тур удален из корзины".

Definition post_cart_remove (session : Session) (itemId : Z)
  : DB -> Response * DB :=
  requireAuth session (fun _ =>
    try_catch (_ <- CartItem_destroy itemId ;; ret cart_remove_ok)
              (fun _ => Json 500 false "Ошибка удаления из корзины")).

(** ** GET /cart *)

Definition findTour (db : DB) (tourId : Z) : option Tour :=
  find (fun t => tour_id t =? tourId) (tours db).

(** The rows that the [include] of [Tour] through [CartItem] joins to a
    cart: one per cart line whose tour is in the catalog, carrying the
    tour as it is stored now. *)
Definition cartTours (db : DB) (c : Cart) : list CartRow :=
  flat_map
    (fun l =>
       if CartId l =? cart_id c then
         match findTour db (TourId l) with
         | Some t => [mkCartRow t (quantity l)]
         | None => []
         end
       else [])
    (cartItems db).

(** A [Cart] instance loaded with its [Tours]. *)
Record CartWithTours := mkCartWithTours {
  loaded_cart : Cart;
  Tours : list CartRow
}.

(** [Cart.findOne({ where: { UserId }, include: { model: Tour, ... } })]. *)
Definition Cart_findOne_include (userId : Z) : Store (option CartWithTours) :=
  fun db =>
    (Returned
       (option_map (fun c => mkCartWithTours c (cartTours db c))
                   (userCart db userId)),
     db).

(** An INTEGER column read as a JavaScript number (exact below 2^53). *)
Definition Z2float (z : Z) : float :=
  if z <? 0 then PrimFloat.opp (PrimFloat.of_uint63 (Uint63.of_Z (- z)))
  else PrimFloat.of_uint63 (Uint63.of_Z z).

(** [items.reduce((sum, tour) => sum + (tour.price * tour.CartItem.quantity), 0)]. *)
Definition reduce_total (items : list CartRow) : float :=
  fold_left
    (fun sum tour =>
       PrimFloat.add sum
         (PrimFloat.mul (price (row_tour tour)) (Z2float (row_quantity tour))))
    items 0%float.

(** The total as the data model words it: the sum, over the lines of the
    cart in table order, of the price now stored for the line's tour times
    the line's quantity. *)
Fixpoint sum_lines (db : DB) (cartId : Z) (lines : list CartItem) (acc : float)
  : float :=
  match lines with
  | [] => acc
  | l :: rest =>
      if CartId l =? cartId then
        match findTour db (TourId l) with
        | Some t =>
            sum_lines db cartId rest
              (PrimFloat.add acc (PrimFloat.mul (price t) (Z2float (quantity l))))
        | None => sum_lines db cartId rest acc
        end
      else sum_lines db cartId rest acc
  end.

Definition get_cart (session : Session) : DB -> Response * DB :=
  requireAuth session (fun user =>
    try_catch
      (cart <- Cart_findOne_include (session_id user) ;;
       let items := match cart with
                    | Some c => Tours c
                    | None => []
                    end in
       let total := match cart with
                    | Some c => reduce_total (Tours c)
                    | None => 0%float
                    end in
       ret (Render 200 (CartPage items total user "Корзина")))
      (fun _ => Render 500 (ErrorPage "Ошибка загрузки корзины" "Ошибка"))).

(** ** POST /cart/add/:tourId, one awaited storage call at a time

    The handler suspends at each [await]; between two awaits of one request
    the storage calls of other requests may run.  A request in flight is at
    one of these points. *)
Inductive AddState :=
| AtCartFindOne
| AtCartCreate
| AtItemFindOne (cart : Cart)
| AtItemWrite (cart : Cart) (cartItem : option CartItem)
| Responded (r : Response).

(** Runs the request up to and including its next awaited storage call. *)
Definition add_step (userId tourId : Z) (st : AddState) (db : DB)
  : AddState * DB :=
  match st with
  | AtCartFindOne =>
      match Cart_findOne userId db with
      | (Returned (Some c), db') => (AtItemFindOne c, db')
      | (Returned None, db') => (AtCartCreate, db')
      | (Thrown _, db') => (Responded cart_add_failed, db')
      end
  | AtCartCreate =>
      match Cart_create userId db with
      | (Returned c, db') => (AtItemFindOne c, db')
      | (Thrown _, db') => (Responded cart_add_failed, db')
      end
  | AtItemFindOne cart =>
      match CartItem_findOne (cart_id cart) tourId db with
      | (Returned cartItem, db') => (AtItemWrite cart cartItem, db')
      | (Thrown _, db') => (Responded cart_add_failed, db')
      end
  | AtItemWrite cart (Some item) =>
      match cartItem_update item (quantity item + 1) db with
      | (Returned _, db') => (Responded cart_add_ok, db')
      | (Thrown _, db') => (Responded cart_add_failed, db')
      end
  | AtItemWrite cart None =>
      match CartItem_create (cart_id cart) tourId db with
      | (Returned _, db') => (Responded cart_add_ok, db')
      | (Thrown _, db') => (Responded cart_add_failed, db')
      end
  | Responded r => (Responded r, db)
  end.

(** One authenticated request in flight. *)
Record Request := mkRequest {
  req_user : Z;
  req_tour : Z;
  req_state : AddState
}.

Definition request_step (r : Request) (db : DB) : Request * DB :=
  let (st, db') := add_step (req_user r) (req_tour r) (req_state r) db in
  (mkRequest (req_user r) (req_tour r) st, db').

Fixpoint replace_nth {A} (i : nat) (x : A) (l : list A) : list A :=
  match l, i with
  | [], _ => []
  | _ :: t, O => x :: t
  | h :: t, S j => h :: replace_nth j x t
  end.

(** Runs the pool under a schedule: each entry names the request that
    performs its next storage call. *)
Fixpoint run_schedule (sched : list nat) (pool : list Request) (db : DB)
  : list Request * DB :=
  match sched with
  | [] => (pool, db)
  | i :: rest =>
      match nth_error pool i with
      | Some r =>
          let (r', db') := request_step r db in
          run_schedule rest (replace_nth i r' pool) db'
      | None => run_schedule rest pool db
      end
  end.

(** [k] consecutive storage calls of one request. *)
Fixpoint request_steps (k : nat) (r : Request) (db : DB) : Request * DB :=
  match k with
  | O => (r, db)
  | S k' =>
      let (r', db') := request_step r db in
      request_steps k' r' db'
  end.

(** A request that has passed [requireAuth] and not yet reached storage. *)
Definition new_request (userId tourId : Z) : Request :=
  mkRequest userId tourId AtCartFindOne.

Definition responded (userId tourId : Z) (r : Response) : Request :=
  mkRequest userId tourId (Responded r).

(** The schedule without interleaving: request 0 runs its storage calls
    (the handler awaits at most four), then request 1, and so on. *)
Definition serial_from (i n : nat) : list nat :=
  flat_map (fun j => repeat j 4) (seq i n).

Definition serial_schedule (n : nat) : list nat := serial_from 0 n.

(** [n] calls of the handler, each finished before the next starts. *)
Fixpoint add_sequentially (n : nat) (user : SessionUser) (tourId : Z) (db : DB)
  : list Response * DB :=
  match n with
  | O => ([], db)
  | S m =>
      let (r, db1) := post_cart_add (Some user) tourId db in
      let (rs, db2) := add_sequentially m user tourId db1 in
      (r :: rs, db2)
  end.

End CartEngine.

(** ** Accounts: registration, login and profile update *)

(** [const { username, password } = req.body] of /register and /login.
    A form field is a string; the empty string is the falsy value. *)
Record Credentials := mkCredentials {
  cred_username : string;
  cred_password : string
}.

(** [const { username, password } = req.body] as /login reads it.  The
    password reaches [bcrypt.compare] as it was sent: [None] stands for a
    field that is missing or is not a string, for which [bcrypt.compare]
    throws instead of answering. *)
Record LoginForm := mkLoginForm {
  login_username : string;
  login_password : option string
}.

(** Credentials typed into the form: both fields are strings. *)
Definition login_form_of (c : Credentials) : LoginForm :=
  mkLoginForm (cred_username c) (Some (cred_password c)).

Coercion login_form_of : Credentials >-> LoginForm.

(** [const { username, currentPassword, newPassword } = req.body]. *)
Record ProfileForm := mkProfileForm {
  form_username : string;
  currentPassword : string;
  newPassword : string
}.

(** [updateData]: [{ username }], with [password] when it was assigned. *)
Record UpdateData := mkUpdateData {
  upd_username : string;
  upd_password : option string
}.

Definition User_findOne (uname : string) : Store (option User) :=
  fun db => (Returned (find (fun u => (username u =? uname)%string) (users db)), db).

Definition User_findByPk (id : Z) : Store (option User) :=
  fun db => (Returned (find (fun u => user_id u =? id) (users db)), db).

Definition set_password (u : User) (p : string) : User :=
  mkUser (user_id u) (username u) p (role u).

(** [user.set(updateData)] on the loaded instance. *)
Definition user_set (user : User) (data : UpdateData) : User :=
  mkUser (user_id user) (upd_username data)
         (match upd_password data with
          | Some p => p
          | None => password user
          end)
         (role user).

(** [user.changed('username')] and [user.changed('password')] after
    [user.set(updateData)]: the value differs from the loaded one. *)
Definition changed_username (user : User) (data : UpdateData) : bool :=
  negb (upd_username data =? username user)%string.

Definition changed_password (user : User) (data : UpdateData) : bool :=
  match upd_password data with
  | Some p => negb (p =? password user)%string
  | None => false
  end.

Definition login_rejected : Response :=
  Render 400 (LoginPage "Неверный логин или пароль" "Вход в систему").

Definition login_error : Response :=
  Render 500 (ErrorPage "Ошибка входа" "Ошибка").

Definition register_failed : Response :=
  Render 500 (ErrorPage "Ошибка регистрации" "Ошибка").

Definition register_invalid : Response :=
  Render 400 (RegisterPage "Логин и пароль обязательны" "Регистрация").

Definition profile_rejected (user : option User) : Response :=
  Render 400 (ProfilePage user "Неверный текущий пароль" "Мой профиль").

Definition profile_failed : Response :=
  Render 500 (ErrorPage "Ошибка обновления профиля" "Ошибка").

Section Accounts.

(** The [bcrypt] package: [bcrypt.hash(data, rounds)] draws a salt, which is
    an explicit argument here, and [bcrypt.compare(data, encrypted)]. *)
Variable Salt : Type.
Variable bcrypt_hash : string -> Z -> Salt -> string.
Variable bcrypt_compare : string -> string -> bool.

(** [User.beforeCreate]. *)
Definition User_beforeCreate (salt : Salt) (user : User) : User :=
  if truthy (password user) then
    set_password user (bcrypt_hash (password user) 10 salt)
  else user.

(** [User.beforeUpdate]; [changed] is [user.changed('password')]. *)
Definition User_beforeUpdate (salt : Salt) (changed : bool) (user : User) : User :=
  if changed then set_password user (bcrypt_hash (password user) 10 salt)
  else user.

(** [User.create({ username, password })]: [role] takes its default, the
    hook runs, then the row is inserted unless the username is taken. *)
Definition User_create (salt : Salt) (uname pwd : string) : Store User :=
  fun db =>
    let user := User_beforeCreate salt (mkUser (nextUserId db) uname pwd "client") in
    if existsb (fun u => (username u =? uname)%string) (users db) then
      (Thrown UniqueConstraintError, db)
    else
      (Returned user, set_users db (users db ++ [user]) (nextUserId db + 1)).

(** The UPDATE issued by [save]: only the changed columns of the row with
    the instance's primary key are written. *)
Definition write_changes (chU chP : bool) (user' : User) (u : User) : User :=
  if user_id u =? user_id user' then
    mkUser (user_id u)
           (if chU then username user' else username u)
           (if chP then password user' else password u)
           (role u)
  else u.

(** [user.update(updateData)]: set the values, run the hook, write. *)
Definition user_update (salt : Salt) (user : User) (data : UpdateData)
  : Store User :=
  fun db =>
    let chU := changed_username user data in
    let chP := changed_password user data in
    let user' := User_beforeUpdate salt chP (user_set user data) in
    if chU
       && existsb (fun u => negb (user_id u =? user_id user)
                            && (username u =? username user')%string)
                  (users db) then
      (Thrown UniqueConstraintError, db)
    else
      (Returned user',
       set_users db (map (write_changes chU chP user') (users db))
                 (nextUserId db)).

(** ** POST /register *)

Definition post_register (salt : Salt) (body : Credentials)
  : DB -> Response * DB :=
  try_catch
    (if truthy (cred_username body) && truthy (cred_password body) then
       _ <- User_create salt (cred_username body) (cred_password body) ;;
       ret (Redirect "/login")
     else ret register_invalid)
    (fun _ => register_failed).

(** ** POST /login

    The handler may assign [req.session.user]; the session it leaves is
    returned with the response. *)

(** [await bcrypt.compare(password, user.password)] on the field as sent:
    the package rejects data that is missing or not a string. *)
Definition compare_password (data : option string) (encrypted : string)
  : Store bool :=
  match data with
  | Some p => ret (bcrypt_compare p encrypted)
  | None => throw BcryptError
  end.

(** [user && await bcrypt.compare(...)]: the comparison runs only when a
    user was found. *)
Definition post_login (session : Session) (body : LoginForm)
  : DB -> (Response * Session) * DB :=
  try_catch
    (user <- User_findOne (login_username body) ;;
     match user with
     | Some u =>
         accepted <- compare_password (login_password body) (password u) ;;
         if accepted then
           ret (Redirect "/",
                Some (mkSessionUser (user_id u) (username u) (role u)))
         else ret (login_rejected, session)
     | None => ret (login_rejected, session)
     end)
    (fun _ => (login_error, session)).

(** ** POST /profile/update *)

(** The part of the handler that builds [updateData]: [inl] is the early
    [return res.status(400).render(...)].  Reading [user.password] of a
    missing user throws. *)
Definition profile_updateData (user : option User) (body : ProfileForm)
  : Store (Response + UpdateData) :=
  if truthy (newPassword body) then
    if negb (truthy (currentPassword body)) then
      ret (inl (profile_rejected user))
    else
      match user with
      | None => throw TypeError
      | Some u =>
          if negb (bcrypt_compare (currentPassword body) (password u)) then
            ret (inl (profile_rejected user))
          else
            ret (inr (mkUpdateData (form_username body) (Some (newPassword body))))
      end
  else ret (inr (mkUpdateData (form_username body) None)).

(** The answer and the database after [user.update] in the handler. *)
Definition run_update (salt : Salt) (u : User) (data : UpdateData) (db : DB)
  : Response * DB :=
  match user_update salt u data db with
  | (Returned _, db') => (Redirect "/profile", db')
  | (Thrown _, db') => (profile_failed, db')
  end.

Definition post_profile_update (salt : Salt) (session : Session)
    (body : ProfileForm) : DB -> Response * DB :=
  requireAuth session (fun su =>
    try_catch
      (user <- User_findByPk (session_id su) ;;
       checked <- profile_updateData user body ;;
       match checked with
       | inl rejected => ret rejected
       | inr updateData =>
           match user with
           | None => throw TypeError
           | Some u =>
               _ <- user_update salt u updateData ;;
               ret (Redirect "/profile")
           end
       end)
      (fun _ => profile_failed)).

End Accounts.

Arguments User_beforeCreate {Salt} bcrypt_hash salt user.
Arguments User_beforeUpdate {Salt} bcrypt_hash salt changed user.
Arguments User_create {Salt} bcrypt_hash salt uname pwd _.
Arguments user_update {Salt} bcrypt_hash salt user data _.
Arguments post_register {Salt} bcrypt_hash salt body _.
Arguments post_profile_update {Salt} bcrypt_hash bcrypt_compare salt session body _.
Arguments run_update {Salt} bcrypt_hash salt u data db.

(** Some stored user has the username. *)
Definition has_username (db : DB) (uname : string) : bool :=
  existsb (fun u => (username u =? uname)%string) (users db).

(** The stored password of the user with primary key [id]. *)
Definition stored_password (db : DB) (id : Z) : option string :=
  option_map password (find (fun u => user_id u =? id) (users db)).

(** ** Administrative routes *)

(** Answers of the routes that also reply with [res.status(..).send(..)]. *)
Inductive Reply :=
| Plain (r : Response)
| Send (status : Z) (body : string).

Definition forbidden : Reply := Send 403 "Доступ запрещён".

(** [requireRole(role)]: the request passes only with a signed-in user of
    that role. *)
Definition requireRole (role : string) (session : Session)
    (next : DB -> Reply * DB) : DB -> Reply * DB :=
  match session with
  | None => fun db => (forbidden, db)
  | Some user =>
      if negb (session_role user =? role)%string then fun db => (forbidden, db)
      else next
  end.

Definition is_admin (session : Session) : bool :=
  match session with
  | Some user => (session_role user =? "admin")%string
  | None => false
  end.

Section TourAdmin.

(** What the storage layer does to the cart lines when the tour with the
    given id is deleted: [None] when it refuses the delete, otherwise the
    lines it leaves.  The referential action is not visible in
    [src/server.js]. *)
Variable onTourDelete : Z -> list CartItem -> option (list CartItem).

(** [Tour.destroy({ where: { id: tourId } })]. *)
Definition Tour_destroy (tourId : Z) : Store unit :=
  fun db =>
    if tour_exists db tourId then
      match onTourDelete tourId (cartItems db) with
      | None => (Thrown ForeignKeyConstraintError, db)
      | Some ls =>
          (Returned tt,
           mkDB (users db)
                (filter (fun t => negb (tour_id t =? tourId)) (tours db))
                (carts db) ls
                (nextUserId db) (nextCartId db) (nextItemId db))
      end
    else (Returned tt, db).

(** POST /delete-tour/:id. *)
Definition post_delete_tour (session : Session) (tourId : Z)
  : DB -> Reply * DB :=
  requireRole "admin" session
    (try_catch (_ <- Tour_destroy tourId ;; ret (Plain (Redirect "/")))
               (fun _ => Send 500 "Internal Server Error")).

End TourAdmin.

(** The two usual referential actions: the lines of the tour go with it,
    or the lines are left alone. *)
Definition cascade_lines (tourId : Z) (ls : list CartItem)
  : option (list CartItem) :=
  Some (filter (fun l => negb (TourId l =? tourId)) ls).

Definition keep_lines (tourId : Z) (ls : list CartItem)
  : option (list CartItem) := Some ls.

(** No request holds a line it read with a quantity below 1. *)
Definition holds_positive (r : Request) : Prop :=
  match req_state r with
  | AtItemWrite _ (Some item) => 1 <= quantity item
  | _ => True
  end.

(** The rows GET /cart lists for a user: those joined to the cart that
    [Cart.findOne] returns, none without a cart. *)
Definition cart_items (db : DB) (userId : Z) : list CartRow :=
  match userCart db userId with
  | Some c => cartTours db c
  | None => []
  end.

(** ** Invariants of the tables *)

(** No two elements of the list are equal under [eqb]. *)
Fixpoint distinctb {A} (eqb : A -> A -> bool) (l : list A) : bool :=
  match l with
  | [] => true
  | x :: rest => negb (existsb (eqb x) rest) && distinctb eqb rest
  end.

Definition same_pair (a b : CartItem) : bool :=
  (CartId a =? CartId b) && (TourId a =? TourId b).

(** [Cart.UserId] is unique across the carts. *)
Definition one_cart_per_user (db : DB) : bool :=
  distinctb Z.eqb (map UserId (carts db)).

(** At most one line for a pair (cart, tour). *)
Definition one_line_per_pair (db : DB) : bool :=
  distinctb same_pair (cartItems db).

Definition quantities_positive (db : DB) : bool :=
  forallb (fun l => 1 <=? quantity l) (cartItems db).

(** Every line lies in a stored cart. *)
Definition lines_in_carts (db : DB) : bool :=
  forallb (fun l => cart_exists db (CartId l)) (cartItems db).

(** Every line is for a tour of the catalog. *)
Definition lines_on_tours (db : DB) : bool :=
  forallb (fun l => tour_exists db (TourId l)) (cartItems db).

(** Primary keys of carts and lines are distinct and below the counters. *)
Definition keys_ok (db : DB) : bool :=
  distinctb Z.eqb (map cart_id (carts db))
  && forallb (fun c => cart_id c <? nextCartId db) (carts db)
  && distinctb Z.eqb (map item_id (cartItems db))
  && forallb (fun l => item_id l <? nextItemId db) (cartItems db).

(** Usernames are distinct, and so are the primary keys of the users,
    which lie below the counter. *)
Definition accounts_ok (db : DB) : bool :=
  distinctb String.eqb (map username (users db))
  && distinctb Z.eqb (map user_id (users db))
  && forallb (fun u => user_id u <? nextUserId db) (users db).

(** ** Sample data *)

Definition anna : User := mkUser 1 "anna" "h:secret" "client".
Definition boris : User := mkUser 2 "boris" "h:hunter2" "client".

Definition anna_session : SessionUser := mkSessionUser 1 "anna" "client".
Definition boris_session : SessionUser := mkSessionUser 2 "boris" "client".

Definition tourA : Tour := mkTour 1 "TourA" "" 100%float 3.
Definition tourB : Tour := mkTour 2 "TourB" "" 50%float 7.

(** Two users, two tours, no cart yet. *)
Definition fresh_db : DB := mkDB [anna; boris] [tourA; tourB] [] [] 3 1 1.

(** Anna owns cart 1, which holds tour A twice and tour B once. *)
Definition anna_cart_db : DB :=
  mkDB [anna; boris] [tourA; tourB] [mkCart 1 1]
       [mkCartItem 1 2 1 1; mkCartItem 2 1 1 2] 3 2 3.

(** Anna owns cart 1, which is empty. *)
Definition anna_empty_cart_db : DB :=
  mkDB [anna; boris] [tourA; tourB] [mkCart 1 1] [] 3 2 1.

(** Some line with id [itemId] lies in a cart of user [userId]. *)
Definition owns_line (db : DB) (userId itemId : Z) : bool :=
  existsb
    (fun l =>
       (item_id l =? itemId)
       && existsb (fun c => (cart_id c =? CartId l) && (UserId c =? userId))
                  (carts db))
    (cartItems db).

Definition has_line (db : DB) (itemId : Z) : bool :=
  existsb (fun l => item_id l =? itemId) (cartItems db).

(** Exactly one line for the pair, and its quantity is [n]. *)
Definition single_line_with (db : DB) (userId tourId n : Z) : bool :=
  match linesFor db userId tourId with
  | [l] => quantity l =? n
  | _ => false
  end.

Definition admin_session : SessionUser := mkSessionUser 7 "admin" "admin".

Definition strict_storage : StorageOptions := mkStorageOptions true true.
Definition lax_storage : StorageOptions := mkStorageOptions false false.

(** A stand-in for [bcrypt] used to run the account handlers on the sample
    data: it ignores the salt and the rounds. *)
Definition sample_hash (data : string) (rounds : Z) (salt : unit) : string :=
  "h:" ++ data.

Definition sample_compare (data encrypted : string) : bool :=
  (encrypted =? "h:" ++ data)%string.

(** * Properties *)

(** ** List facts used below *)

Lemma filter_nil_find_none {A} (p : A -> bool) (l : list A) :
  filter p l = [] -> find p l = None.
Proof.
  induction l as [|x l IH]; simpl; [reflexivity|].
  destruct (p x); [discriminate | exact IH].
Qed.

Lemma find_none_existsb {A} (p : A -> bool) (l : list A) :
  find p l = None -> existsb p l = false.
Proof.
  induction l as [|x l IH]; simpl; [reflexivity|].
  destruct (p x); [discriminate | exact IH].
Qed.

Lemma filter_single_find {A} (p : A -> bool) (l : list A) (x : A) :
  filter p l = [x] -> find p l = Some x.
Proof.
  induction l as [|y l IH]; simpl; [discriminate|].
  destruct (p y); [congruence | exact IH].
Qed.

Lemma filter_map_stable {A} (p : A -> bool) (f : A -> A) (l : list A) :
  (forall x, p (f x) = p x) -> filter p (map f l) = map f (filter p l).
Proof.
  intros Hp. induction l as [|x l IH]; simpl; [reflexivity|].
  rewrite Hp. destruct (p x); simpl; congruence.
Qed.

Lemma find_app_none {A} (p : A -> bool) (l1 l2 : list A) :
  find p l1 = None -> find p (l1 ++ l2) = find p l2.
Proof.
  induction l1 as [|x l IH]; simpl; [reflexivity|].
  destruct (p x); [discriminate | exact IH].
Qed.

Lemma find_app_some {A} (p : A -> bool) (l1 l2 : list A) (x : A) :
  find p l1 = Some x -> find p (l1 ++ l2) = Some x.
Proof.
  induction l1 as [|y l IH]; simpl; [discriminate|].
  destruct (p y); [congruence | exact IH].
Qed.

Lemma find_some_existsb {A} (p q : A -> bool) (l : list A) (x : A) :
  find p l = Some x -> q x = true -> existsb q l = true.
Proof.
  intros Hf Hq. apply find_some in Hf. apply existsb_exists.
  exists x. tauto.
Qed.

(** ** Facts about the cart tables *)

Lemma line_matches_set_quantity cid tid i q l :
  line_matches cid tid (set_quantity i q l) = line_matches cid tid l.
Proof.
  unfold set_quantity. destruct (item_id l =? i); reflexivity.
Qed.

Lemma userCart_exists db uid c :
  userCart db uid = Some c -> cart_exists db (cart_id c) = true.
Proof.
  intros H. unfold cart_exists.
  apply (find_some_existsb _ _ _ _ H). apply Z.eqb_refl.
Qed.

Lemma wf_no_line_of_next_cart db tid :
  db_wf db = true ->
  filter (line_matches (nextCartId db) tid) (cartItems db) = [].
Proof.
  unfold db_wf. intros H. apply andb_prop in H. destruct H as [_ H].
  induction (cartItems db) as [|l ls IH]; simpl in *; [reflexivity|].
  apply andb_prop in H. destruct H as [Hl Hls].
  unfold line_matches at 1.
  apply Z.ltb_lt in Hl.
  destruct (Z.eqb_spec (CartId l) (nextCartId db)); [lia|].
  simpl. auto.
Qed.

Section CartFacts.

Variable opts : StorageOptions.

Lemma cart_add_body_split userId tourId db :
  cart_add_body opts userId tourId db =
    match userCart db userId with
    | Some c => cart_add_line opts c tourId db
    | None => bind (Cart_create opts userId)
                   (fun c => cart_add_line opts c tourId) db
    end.
Proof.
  unfold cart_add_body, bind at 1, Cart_findOne.
  destruct (userCart db userId); reflexivity.
Qed.

Lemma cart_add_line_absent db c tid :
  cart_exists db (cart_id c) = true ->
  tour_exists db tid = true ->
  filter (line_matches (cart_id c) tid) (cartItems db) = [] ->
  cart_add_line opts c tid db =
    (Returned cart_add_ok,
     set_cartItems db (cartItems db ++ [added_line db c tid]) (nextItemId db + 1)).
Proof.
  intros Hc Ht Hnone.
  pose proof (filter_nil_find_none _ _ Hnone) as Hfind.
  unfold cart_add_line, bind, CartItem_findOne, CartItem_create, ret.
  rewrite Hfind, Hc, Ht, (find_none_existsb _ _ Hfind).
  rewrite !andb_false_r. reflexivity.
Qed.

Lemma cart_add_line_present db c tid l :
  filter (line_matches (cart_id c) tid) (cartItems db) = [l] ->
  cart_add_line opts c tid db =
    (Returned cart_add_ok,
     set_cartItems db
       (map (set_quantity (item_id l) (quantity l + 1)) (cartItems db))
       (nextItemId db)).
Proof.
  intros Hone.
  unfold cart_add_line, bind, CartItem_findOne, cartItem_update, ret.
  rewrite (filter_single_find _ _ _ Hone). reflexivity.
Qed.

Lemma add_creates_line db su tid c :
  userCart db (session_id su) = Some c ->
  filter (line_matches (cart_id c) tid) (cartItems db) = [] ->
  tour_exists db tid = true ->
  post_cart_add opts (Some su) tid db =
    (cart_add_ok,
     set_cartItems db (cartItems db ++ [added_line db c tid]) (nextItemId db + 1)).
Proof.
  intros Hc Hnone Ht.
  unfold post_cart_add, requireAuth, try_catch.
  rewrite cart_add_body_split, Hc.
  rewrite (cart_add_line_absent db c tid) by eauto using userCart_exists.
  reflexivity.
Qed.

Lemma add_creates_cart_and_line db su tid :
  userCart db (session_id su) = None ->
  db_wf db = true ->
  user_exists db (session_id su) = true ->
  tour_exists db tid = true ->
  let c := mkCart (nextCartId db) (session_id su) in
  let db1 := set_carts db (carts db ++ [c]) (nextCartId db + 1) in
  post_cart_add opts (Some su) tid db =
    (cart_add_ok,
     set_cartItems db1 (cartItems db ++ [added_line db c tid]) (nextItemId db + 1)).
Proof.
  intros Hc Hwf Hu Ht c db1.
  unfold post_cart_add, requireAuth, try_catch.
  rewrite cart_add_body_split, Hc.
  unfold bind, Cart_create. rewrite Hu, andb_false_r.
  fold c. fold db1.
  rewrite (cart_add_line_absent db1 c tid).
  - reflexivity.
  - unfold cart_exists, db1. simpl. rewrite existsb_app. simpl.
    rewrite Z.eqb_refl. apply orb_true_r.
  - exact Ht.
  - exact (wf_no_line_of_next_cart db tid Hwf).
Qed.

Lemma add_increments_line db su tid c l :
  userCart db (session_id su) = Some c ->
  filter (line_matches (cart_id c) tid) (cartItems db) = [l] ->
  post_cart_add opts (Some su) tid db =
    (cart_add_ok,
     set_cartItems db
       (map (set_quantity (item_id l) (quantity l + 1)) (cartItems db))
       (nextItemId db)).
Proof.
  intros Hc Hone.
  unfold post_cart_add, requireAuth, try_catch.
  rewrite cart_add_body_split, Hc.
  rewrite (cart_add_line_present db c tid l Hone). reflexivity.
Qed.

(** Absent to Present(1). *)
Lemma add_from_absent db su tid :
  db_wf db = true ->
  user_exists db (session_id su) = true ->
  tour_exists db tid = true ->
  linesFor db (session_id su) tid = [] ->
  exists l db',
    post_cart_add opts (Some su) tid db = (cart_add_ok, db')
    /\ linesFor db' (session_id su) tid = [l]
    /\ quantity l = 1.
Proof.
  intros Hwf Hu Ht Habs. unfold linesFor in Habs.
  destruct (userCart db (session_id su)) as [c|] eqn:Hc.
  - exists (added_line db c tid). eexists. split.
    + apply add_creates_line; eassumption.
    + split; [|reflexivity].
      unfold linesFor, userCart in *. simpl. rewrite Hc.
      rewrite filter_app, Habs. simpl.
      unfold line_matches. simpl. rewrite !Z.eqb_refl. reflexivity.
  - set (c := mkCart (nextCartId db) (session_id su)).
    exists (added_line db c tid). eexists. split.
    + apply add_creates_cart_and_line; assumption.
    + split; [|reflexivity].
      unfold linesFor, userCart in *. simpl.
      rewrite (find_app_none _ _ _ Hc). simpl. rewrite Z.eqb_refl.
      rewrite filter_app. simpl.
      rewrite (wf_no_line_of_next_cart db tid Hwf). simpl.
      unfold line_matches. simpl. rewrite !Z.eqb_refl. reflexivity.
Qed.

(** Present(q) to Present(q+1), on the same row. *)
Lemma add_from_present db su tid l :
  linesFor db (session_id su) tid = [l] ->
  exists db',
    post_cart_add opts (Some su) tid db = (cart_add_ok, db')
    /\ linesFor db' (session_id su) tid =
         [mkCartItem (item_id l) (quantity l + 1) (CartId l) (TourId l)].
Proof.
  intros Hp. unfold linesFor in Hp.
  destruct (userCart db (session_id su)) as [c|] eqn:Hc; [|discriminate].
  eexists. split.
  - eapply add_increments_line; eassumption.
  - unfold linesFor, userCart in *. simpl. rewrite Hc.
    rewrite filter_map_stable by (intro; apply line_matches_set_quantity).
    rewrite Hp. simpl. unfold set_quantity. rewrite Z.eqb_refl. reflexivity.
Qed.

End CartFacts.

(** Opens the gate and the [try]/[catch] of the add handler and splits its
    body at the cart lookup. *)
Ltac open_cart_add :=
  unfold post_cart_add, requireAuth, try_catch; rewrite cart_add_body_split.

Section CartAdd.

Variable opts : StorageOptions.

(** C1. Two calls of the add-to-cart handler, one after the other, from a
    state in which the user's cart holds no line for the tour: the first
    call leaves exactly one line, with quantity 1, and the second leaves
    exactly one line, the same row with quantity 2.  Both answer with the
    success payload. *)
Theorem add_twice_single_line db su tid :
  db_wf db = true ->
  user_exists db (session_id su) = true ->
  tour_exists db tid = true ->
  linesFor db (session_id su) tid = [] ->
  exists l db1 db2,
    post_cart_add opts (Some su) tid db = (cart_add_ok, db1)
    /\ linesFor db1 (session_id su) tid = [l]
    /\ quantity l = 1
    /\ post_cart_add opts (Some su) tid db1 = (cart_add_ok, db2)
    /\ linesFor db2 (session_id su) tid =
         [mkCartItem (item_id l) 2 (CartId l) (TourId l)].
Proof.
  intros Hwf Hu Ht Habs.
  destruct (add_from_absent opts db su tid Hwf Hu Ht Habs)
    as (l & db1 & Hrun1 & Hl1 & Hq1).
  destruct (add_from_present opts db1 su tid l Hl1) as (db2 & Hrun2 & Hl2).
  exists l, db1, db2. rewrite Hq1 in Hl2. auto.
Qed.

(** Sequential adds from Present(q): [n] more calls add [n] to the row. *)
Lemma add_sequentially_present n : forall db su tid l,
  linesFor db (session_id su) tid = [l] ->
  exists db',
    add_sequentially opts n su tid db = (repeat cart_add_ok n, db')
    /\ linesFor db' (session_id su) tid =
         [mkCartItem (item_id l) (quantity l + Z.of_nat n) (CartId l) (TourId l)].
Proof.
  induction n as [|n IH]; intros db su tid l Hl.
  - exists db. split; [reflexivity|].
    rewrite Hl. destruct l; simpl. rewrite Z.add_0_r. reflexivity.
  - destruct (add_from_present opts db su tid l Hl) as (db1 & Hrun & Hl1).
    destruct (IH db1 su tid _ Hl1) as (db2 & Hseq & Hl2).
    exists db2. split.
    + cbn [add_sequentially]. rewrite Hrun, Hseq. reflexivity.
    + rewrite Hl2. cbn [item_id quantity CartId TourId].
      do 2 f_equal. lia.
Qed.

Lemma add_sequentially_absent n db su tid :
  (1 <= n)%nat ->
  db_wf db = true ->
  user_exists db (session_id su) = true ->
  tour_exists db tid = true ->
  linesFor db (session_id su) tid = [] ->
  exists l db',
    add_sequentially opts n su tid db = (repeat cart_add_ok n, db')
    /\ linesFor db' (session_id su) tid = [l]
    /\ quantity l = Z.of_nat n.
Proof.
  intros Hn Hwf Hu Ht Habs.
  destruct n as [|n]; [lia|].
  destruct (add_from_absent opts db su tid Hwf Hu Ht Habs)
    as (l & db1 & Hrun1 & Hl1 & Hq1).
  destruct (add_sequentially_present n db1 su tid l Hl1) as (db2 & Hseq & Hl2).
  eexists. exists db2. split; [|split].
  - cbn [add_sequentially]. rewrite Hrun1, Hseq. reflexivity.
  - exact Hl2.
  - cbn [quantity]. lia.
Qed.

End CartAdd.

(** Both calls on the sample data: Anna adds tour A twice. *)
Lemma add_twice_single_line_witness :
  exists l db1 db2,
    post_cart_add strict_storage (Some anna_session) 1 fresh_db = (cart_add_ok, db1)
    /\ linesFor db1 1 1 = [l]
    /\ quantity l = 1
    /\ post_cart_add strict_storage (Some anna_session) 1 db1 = (cart_add_ok, db2)
    /\ linesFor db2 1 1 = [mkCartItem (item_id l) 2 (CartId l) (TourId l)].
Proof.
  apply (add_twice_single_line strict_storage fresh_db anna_session 1);
    reflexivity.
Defined.

(** ** The handler and its storage calls one at a time *)

Section Scheduling.

Variable opts : StorageOptions.

(** Four uninterrupted storage steps of a new request are one run of the
    handler. *)
Lemma request_steps_responded k : forall u tid r db,
  request_steps opts k (responded u tid r) db = (responded u tid r, db).
Proof.
  induction k as [|k IH]; intros u tid r db; [reflexivity|].
  cbn [request_steps]. unfold request_step at 1. cbn. apply IH.
Qed.

Lemma request_steps_line k u tid c db :
  request_steps opts (S (S k)) (mkRequest u tid (AtItemFindOne c)) db =
    match cart_add_line opts c tid db with
    | (Returned r, db') => (responded u tid r, db')
    | (Thrown _, db') => (responded u tid cart_add_failed, db')
    end.
Proof.
  cbn [request_steps]. unfold request_step at 1 2.
  cbn [req_user req_tour req_state add_step].
  unfold cart_add_line, bind, CartItem_findOne, ret.
  cbn [req_user req_tour req_state add_step].
  destruct (find (line_matches (cart_id c) tid) (cartItems db)) as [l|].
  - apply request_steps_responded.
  - destruct (CartItem_create opts (cart_id c) tid db) as [[x|e] db'];
      apply request_steps_responded.
Qed.

Lemma request_steps_handler su tid db :
  request_steps opts 4 (new_request (session_id su) tid) db =
    (responded (session_id su) tid (fst (post_cart_add opts (Some su) tid db)),
     snd (post_cart_add opts (Some su) tid db)).
Proof.
  open_cart_add.
  unfold new_request.
  change (request_steps opts 4 ?r db) with
    (let (r', db') := request_step opts r db in request_steps opts 3 r' db').
  unfold request_step at 1. cbn [req_user req_tour req_state add_step].
  unfold Cart_findOne.
  destruct (userCart db (session_id su)) as [c|].
  - rewrite (request_steps_line 1).
    destruct (cart_add_line opts c tid db) as [[r|e] db']; reflexivity.
  - change (request_steps opts 3 ?r db) with
      (let (r', db') := request_step opts r db in request_steps opts 2 r' db').
    unfold request_step at 1. cbn [req_user req_tour req_state add_step].
    unfold bind.
    destruct (Cart_create opts (session_id su) db) as [[c|e] db1].
    + rewrite (request_steps_line 0).
      destruct (cart_add_line opts c tid db1) as [[r|e] db']; reflexivity.
    + apply request_steps_responded.
Qed.

Lemma replace_nth_same {A} (pre : list A) (x y : A) (post : list A) :
  replace_nth (Datatypes.length pre) y (pre ++ x :: post) = pre ++ y :: post.
Proof.
  induction pre as [|a pre IH]; simpl; [reflexivity|]. now rewrite IH.
Qed.

Lemma nth_error_middle {A} (pre : list A) (x : A) (post : list A) :
  nth_error (pre ++ x :: post) (Datatypes.length pre) = Some x.
Proof.
  induction pre as [|a pre IH]; simpl; [reflexivity | exact IH].
Qed.

(** [k] consecutive schedule entries for the request at position [i]. *)
Lemma run_schedule_repeat k : forall pre r post rest db,
  run_schedule opts (repeat (Datatypes.length pre) k ++ rest) (pre ++ r :: post) db =
    run_schedule opts rest
      (pre ++ fst (request_steps opts k r db) :: post)
      (snd (request_steps opts k r db)).
Proof.
  induction k as [|k IH]; intros pre r post rest db.
  - reflexivity.
  - cbn [repeat app run_schedule request_steps].
    rewrite nth_error_middle.
    destruct (request_step opts r db) as [r' db'].
    rewrite replace_nth_same. apply IH.
Qed.

(** The serial schedule runs the handler once per request, in order. *)
Lemma run_serial su tid n : forall pre db,
  run_schedule opts (serial_from (Datatypes.length pre) n)
               (pre ++ repeat (new_request (session_id su) tid) n) db =
    (pre ++ map (responded (session_id su) tid)
                (fst (add_sequentially opts n su tid db)),
     snd (add_sequentially opts n su tid db)).
Proof.
  induction n as [|n IH]; intros pre db.
  - reflexivity.
  - unfold serial_from. cbn [seq flat_map repeat].
    rewrite (run_schedule_repeat 4 pre _ _ _ db).
    rewrite request_steps_handler.
    cbn [fst snd add_sequentially].
    destruct (post_cart_add opts (Some su) tid db) as [r db1].
    cbn [fst snd].
    specialize (IH (pre ++ [responded (session_id su) tid r]) db1).
    rewrite length_app in IH. cbn [Datatypes.length] in IH.
    rewrite Nat.add_1_r in IH. unfold serial_from in IH.
    rewrite <- app_assoc in IH. cbn [app repeat] in IH. rewrite IH.
    destruct (add_sequentially opts n su tid db1) as [rs db2].
    cbn [fst snd map]. rewrite <- app_assoc. reflexivity.
Qed.

(** C2, as the handler supports it. [n >= 1] add-to-cart requests of one
    user for one tour that run one after another, none interleaved with
    another, from a state without a line for the pair: every request
    answers with the success payload and exactly one line remains, with
    quantity [n]. *)
Theorem serial_adds_single_line n db su tid :
  (1 <= n)%nat ->
  db_wf db = true ->
  user_exists db (session_id su) = true ->
  tour_exists db tid = true ->
  linesFor db (session_id su) tid = [] ->
  exists l db',
    run_schedule opts (serial_schedule n)
                 (repeat (new_request (session_id su) tid) n) db =
      (repeat (responded (session_id su) tid cart_add_ok) n, db')
    /\ linesFor db' (session_id su) tid = [l]
    /\ quantity l = Z.of_nat n.
Proof.
  intros Hn Hwf Hu Ht Habs.
  destruct (add_sequentially_absent opts n db su tid Hn Hwf Hu Ht Habs)
    as (l & db' & Hseq & Hl & Hq).
  exists l, db'. split; [|split; assumption].
  unfold serial_schedule.
  pose proof (run_serial su tid n [] db) as Hrun.
  cbn [Datatypes.length app] in Hrun. rewrite Hrun, Hseq. cbn [fst snd].
  rewrite map_repeat. reflexivity.
Qed.

End Scheduling.

(** Three serial requests of Anna for tour A on the sample data. *)
Lemma serial_adds_single_line_witness :
  exists l db',
    run_schedule strict_storage (serial_schedule 3)
                 (repeat (new_request 1 1) 3) fresh_db =
      (repeat (responded 1 1 cart_add_ok) 3, db')
    /\ linesFor db' 1 1 = [l]
    /\ quantity l = 3.
Proof.
  apply (serial_adds_single_line strict_storage 3 fresh_db anna_session 1);
    [lia | reflexivity | reflexivity | reflexivity | reflexivity].
Defined.

(** C2 as stated fails: two requests of Anna for tour A, interleaved at
    their awaits, both read that the cart holds no line for the tour.
    Whatever the storage layer enforces, the result is not a single line
    with quantity 2: under the unique pair the second insert is refused and
    one line with quantity 1 remains; without it two lines remain. *)
Lemma interleaved_adds_lose_update :
  single_line_with
    (snd (run_schedule strict_storage [0; 1; 0; 1; 0; 1]%nat
            [new_request 1 1; new_request 1 1] anna_empty_cart_db)) 1 1 2 = false
  /\ single_line_with
       (snd (run_schedule lax_storage [0; 1; 0; 1; 0; 1]%nat
               [new_request 1 1; new_request 1 1] anna_empty_cart_db)) 1 1 2 = false
  /\ single_line_with
       (snd (run_schedule (mkStorageOptions true false) [0; 1; 0; 1; 0; 1]%nat
               [new_request 1 1; new_request 1 1] anna_empty_cart_db)) 1 1 2 = false
  /\ single_line_with
       (snd (run_schedule (mkStorageOptions false true) [0; 1; 0; 1; 0; 1]%nat
               [new_request 1 1; new_request 1 1] anna_empty_cart_db)) 1 1 2 = false
  /\ fst (run_schedule strict_storage [0; 1; 0; 1; 0; 1]%nat
            [new_request 1 1; new_request 1 1] anna_empty_cart_db) =
       [responded 1 1 cart_add_ok; responded 1 1 cart_add_failed]
  /\ cartItems
       (snd (run_schedule strict_storage [0; 1; 0; 1; 0; 1]%nat
               [new_request 1 1; new_request 1 1] anna_empty_cart_db)) =
       [mkCartItem 1 1 1 1]
  /\ cartItems
       (snd (run_schedule lax_storage [0; 1; 0; 1; 0; 1]%nat
               [new_request 1 1; new_request 1 1] anna_empty_cart_db)) =
       [mkCartItem 1 1 1 1; mkCartItem 2 1 1 1].
Proof. repeat split; reflexivity. Qed.

(** ** Removing a line *)

(** C3, as the handler behaves. The remove handler reads only the line id:
    for every signed-in user and every id it deletes the rows with that id,
    in whichever cart they lie, keeps every other row and every other
    table, and answers with the success payload. *)
Theorem remove_deletes_by_id_only db su itemId :
  post_cart_remove (Some su) itemId db =
    (cart_remove_ok,
     set_cartItems db
       (filter (fun l => negb (item_id l =? itemId)) (cartItems db))
       (nextItemId db))
  /\ has_line (snd (post_cart_remove (Some su) itemId db)) itemId = false
  /\ (forall l, item_id l <> itemId ->
        (In l (cartItems (snd (post_cart_remove (Some su) itemId db)))
         <-> In l (cartItems db))).
Proof.
  split; [reflexivity|]. split.
  - unfold has_line. cbn.
    induction (cartItems db) as [|l ls IH]; [reflexivity|].
    cbn. destruct (item_id l =? itemId) eqn:E; cbn; [exact IH|].
    rewrite E. exact IH.
  - intros l Hl. cbn. rewrite filter_In.
    apply Z.eqb_neq in Hl. rewrite Hl. cbn. tauto.
Qed.

(** C3 as stated fails: Boris, who owns no cart, removes line 1 of Anna's
    cart.  The answer is the success payload and the line is gone. *)
Lemma remove_foreign_line_succeeds :
  owns_line anna_cart_db (session_id boris_session) 1 = false
  /\ has_line anna_cart_db 1 = true
  /\ fst (post_cart_remove (Some boris_session) 1 anna_cart_db) = cart_remove_ok
  /\ isJsonFailure (fst (post_cart_remove (Some boris_session) 1 anna_cart_db)) = false
  /\ has_line (snd (post_cart_remove (Some boris_session) 1 anna_cart_db)) 1 = false
  /\ cartItems (snd (post_cart_remove (Some boris_session) 1 anna_cart_db)) =
       [mkCartItem 2 1 1 2].
Proof. repeat split; reflexivity. Qed.

(** ** Adding a tour that is not in the catalog *)

Section UnknownTour.

Variable opts : StorageOptions.

Lemma cart_add_line_unknown_tour db c tid :
  tour_exists db tid = false ->
  filter (line_matches (cart_id c) tid) (cartItems db) = [] ->
  cart_add_line opts c tid db =
    if foreignKeys opts then (Thrown ForeignKeyConstraintError, db)
    else (Returned cart_add_ok,
          set_cartItems db (cartItems db ++ [added_line db c tid])
                        (nextItemId db + 1)).
Proof.
  intros Ht Hnone.
  pose proof (filter_nil_find_none _ _ Hnone) as Hfind.
  unfold cart_add_line, bind, CartItem_findOne, CartItem_create, ret.
  rewrite Hfind, Ht, (find_none_existsb _ _ Hfind).
  rewrite !andb_false_r. cbn [negb]. rewrite andb_true_r.
  destruct (foreignKeys opts); reflexivity.
Qed.

Lemma linesFor_added_line db uid c tid :
  userCart db uid = Some c ->
  filter (line_matches (cart_id c) tid) (cartItems db) = [] ->
  linesFor
    (set_cartItems db (cartItems db ++ [added_line db c tid]) (nextItemId db + 1))
    uid tid = [added_line db c tid].
Proof.
  intros Hc Hnone. unfold linesFor, userCart in *. cbn.
  rewrite Hc, filter_app, Hnone. cbn.
  unfold line_matches. cbn. rewrite !Z.eqb_refl. reflexivity.
Qed.

(** The state in which the handler looks for the line: the database with
    the user's cart fetched or created. *)
Lemma unknown_tour_run db su tid :
  db_wf db = true ->
  user_exists db (session_id su) = true ->
  tour_exists db tid = false ->
  linesFor db (session_id su) tid = [] ->
  exists c db1,
    userCart db1 (session_id su) = Some c
    /\ filter (line_matches (cart_id c) tid) (cartItems db1) = []
    /\ cartItems db1 = cartItems db
    /\ carts db1 =
         match userCart db (session_id su) with
         | Some _ => carts db
         | None => carts db ++ [mkCart (nextCartId db) (session_id su)]
         end
    /\ post_cart_add opts (Some su) tid db =
         if foreignKeys opts then (cart_add_failed, db1)
         else (cart_add_ok,
               set_cartItems db1 (cartItems db1 ++ [added_line db1 c tid])
                             (nextItemId db1 + 1)).
Proof.
  intros Hwf Hu Ht Habs.
  open_cart_add.
  unfold linesFor in Habs.
  destruct (userCart db (session_id su)) as [c|] eqn:Hc.
  - exists c, db. rewrite (cart_add_line_unknown_tour db c tid Ht Habs).
    destruct (foreignKeys opts); auto.
  - set (c := mkCart (nextCartId db) (session_id su)).
    set (db1 := set_carts db (carts db ++ [c]) (nextCartId db + 1)).
    assert (Hc1 : userCart db1 (session_id su) = Some c).
    { unfold userCart in *. cbn [db1 set_carts carts].
      rewrite (find_app_none _ _ _ Hc). cbn. now rewrite Z.eqb_refl. }
    assert (Hnone1 : filter (line_matches (cart_id c) tid) (cartItems db1) = []).
    { exact (wf_no_line_of_next_cart db tid Hwf). }
    exists c, db1.
    unfold bind, Cart_create. rewrite Hu, andb_false_r.
    fold c. fold db1.
    rewrite (cart_add_line_unknown_tour db1 c tid Ht Hnone1).
    destruct (foreignKeys opts); auto.
Qed.

(** C4, as the handler behaves. The add handler never reads the catalog.
    For a tour id that is not in it, and no line for the pair, the user's
    cart is fetched or created first, so the user has a cart afterwards.
    When the storage layer enforces foreign keys the insert of the line is
    refused: the answer is the generic failure payload and no line is
    written.  When it does not, the line is written with quantity 1 and the
    answer is the success payload. *)
Theorem add_unknown_tour db su tid :
  db_wf db = true ->
  user_exists db (session_id su) = true ->
  tour_exists db tid = false ->
  linesFor db (session_id su) tid = [] ->
  let r := fst (post_cart_add opts (Some su) tid db) in
  let db' := snd (post_cart_add opts (Some su) tid db) in
  carts db' =
    match userCart db (session_id su) with
    | Some _ => carts db
    | None => carts db ++ [mkCart (nextCartId db) (session_id su)]
    end
  /\ (exists c, userCart db' (session_id su) = Some c)
  /\ (foreignKeys opts = true ->
      r = cart_add_failed /\ cartItems db' = cartItems db)
  /\ (foreignKeys opts = false ->
      r = cart_add_ok
      /\ exists l, linesFor db' (session_id su) tid = [l] /\ quantity l = 1).
Proof.
  intros Hwf Hu Ht Habs r db'. subst r db'.
  destruct (unknown_tour_run db su tid Hwf Hu Ht Habs)
    as (c & db1 & Hc1 & Hnone1 & Hitems & Hcarts & Hrun).
  rewrite Hrun.
  destruct (foreignKeys opts) eqn:Hfk; cbn [fst snd].
  - split; [exact Hcarts|]. split; [exists c; exact Hc1|].
    split; [auto | discriminate].
  - split; [exact Hcarts|]. split; [exists c; exact Hc1|].
    split; [discriminate|]. intros _. split; [reflexivity|].
    exists (added_line db1 c tid). split; [|reflexivity].
    apply linesFor_added_line; assumption.
Qed.

End UnknownTour.

(** Anna, who has no cart, adds tour 99, which is not in the catalog. *)
Lemma add_unknown_tour_witness :
  carts (snd (post_cart_add strict_storage (Some anna_session) 99 fresh_db)) =
    [] ++ [mkCart 1 1]
  /\ (exists c,
        userCart (snd (post_cart_add strict_storage (Some anna_session) 99 fresh_db)) 1
        = Some c)
  /\ (true = true ->
      fst (post_cart_add strict_storage (Some anna_session) 99 fresh_db)
        = cart_add_failed
      /\ cartItems (snd (post_cart_add strict_storage (Some anna_session) 99 fresh_db))
         = [])
  /\ (true = false ->
      fst (post_cart_add strict_storage (Some anna_session) 99 fresh_db)
        = cart_add_ok
      /\ exists l,
           linesFor (snd (post_cart_add strict_storage (Some anna_session) 99 fresh_db))
                    1 99 = [l]
           /\ quantity l = 1).
Proof.
  apply (add_unknown_tour strict_storage fresh_db anna_session 99);
    reflexivity.
Defined.

(** C4 as stated fails: for tour 99, which is not in the catalog, a cart is
    created for Anna whatever the storage layer enforces; and when it does
    not enforce foreign keys the line is created too. *)
Lemma unknown_tour_still_creates_cart :
  tour_exists fresh_db 99 = false
  /\ carts fresh_db = []
  /\ carts (snd (post_cart_add strict_storage (Some anna_session) 99 fresh_db))
     = [mkCart 1 1]
  /\ carts (snd (post_cart_add lax_storage (Some anna_session) 99 fresh_db))
     = [mkCart 1 1]
  /\ post_cart_add lax_storage (Some anna_session) 99 fresh_db =
       (cart_add_ok, mkDB [anna; boris] [tourA; tourB] [mkCart 1 1]
                          [mkCartItem 1 1 1 99] 3 2 2).
Proof. repeat split; reflexivity. Qed.

(** ** Viewing the cart *)

Lemma fold_cartTours_sum_lines db c : forall lines acc,
  fold_left
    (fun sum tour =>
       PrimFloat.add sum
         (PrimFloat.mul (price (row_tour tour)) (Z2float (row_quantity tour))))
    (flat_map
       (fun l =>
          if CartId l =? cart_id c then
            match findTour db (TourId l) with
            | Some t => [mkCartRow t (quantity l)]
            | None => []
            end
          else [])
       lines)
    acc
  = sum_lines db (cart_id c) lines acc.
Proof.
  induction lines as [|l rest IH]; intros acc; [reflexivity|].
  cbn [flat_map sum_lines]. rewrite fold_left_app.
  destruct (CartId l =? cart_id c); [|exact (IH acc)].
  destruct (findTour db (TourId l)) as [t|]; [|exact (IH acc)].
  cbn [fold_left row_tour row_quantity]. apply IH.
Qed.

Lemma reduce_total_sum_lines db c :
  reduce_total (cartTours db c) = sum_lines db (cart_id c) (cartItems db) 0%float.
Proof. apply fold_cartTours_sum_lines. Qed.

(** C5. For a signed-in user the cart page is always rendered with status
    200 and the database is left as it was.  Without a cart the page has no
    items and total 0.  With a cart the items are the cart's lines joined
    with their tours as stored at the time of the request, and the total
    is the sum over these lines of the tour's price times the line's
    quantity.  On the sample data (price 100 with quantity 2, price 50 with
    quantity 1) the total is 250. *)
Theorem cart_view_total db su :
  get_cart (Some su) db =
    (Render 200
       (CartPage
          (match userCart db (session_id su) with
           | Some c => cartTours db c
           | None => []
           end)
          (match userCart db (session_id su) with
           | Some c => sum_lines db (cart_id c) (cartItems db) 0%float
           | None => 0%float
           end)
          su "Корзина"),
     db)
  /\ get_cart (Some anna_session) anna_cart_db =
       (Render 200
          (CartPage [mkCartRow tourA 2; mkCartRow tourB 1] 250%float
                    anna_session "Корзина"),
        anna_cart_db).
Proof.
  split; [|reflexivity].
  unfold get_cart, requireAuth, try_catch, bind, Cart_findOne_include, ret.
  destruct (userCart db (session_id su)) as [c|]; cbn [option_map Tours].
  - rewrite reduce_total_sum_lines. reflexivity.
  - reflexivity.
Qed.

(** ** The session gate on the cart routes *)

(** C9, as the handlers behave. Without a signed-in user the three cart
    routes answer alike: GET /cart, POST /cart/add/:tourId and
    POST /cart/remove/:itemId all redirect to /login, and none touches the
    database. *)
Theorem cart_routes_redirect_without_session opts db tourId itemId :
  get_cart None db = (Redirect "/login", db)
  /\ post_cart_add opts None tourId db = (Redirect "/login", db)
  /\ post_cart_remove None itemId db = (Redirect "/login", db).
Proof. repeat split. Qed.

(** C9 as stated fails: the POST routes answer a request without a session
    with the redirect, which is not a JSON payload. *)
Lemma cart_post_without_session_redirects :
  fst (post_cart_add strict_storage None 1 fresh_db) = Redirect "/login"
  /\ isJson (fst (post_cart_add strict_storage None 1 fresh_db)) = false
  /\ isJsonFailure (fst (post_cart_add strict_storage None 1 fresh_db)) = false
  /\ fst (post_cart_remove None 1 anna_cart_db) = Redirect "/login"
  /\ isJson (fst (post_cart_remove None 1 anna_cart_db)) = false.
Proof. repeat split. Qed.

(** ** Accounts *)

Section AccountFacts.

Variable Salt : Type.
Variable bcrypt_hash : string -> Z -> Salt -> string.
Variable bcrypt_compare : string -> string -> bool.

(** POST /login for credentials typed into the form. *)
Lemma post_login_credentials session (body : Credentials) db :
  post_login bcrypt_compare session body db =
    (match find (fun u => (username u =? cred_username body)%string) (users db) with
     | Some u =>
         if bcrypt_compare (cred_password body) (password u) then
           (Redirect "/",
            Some (mkSessionUser (user_id u) (username u) (role u)))
         else (login_rejected, session)
     | None => (login_rejected, session)
     end,
     db).
Proof.
  unfold post_login, try_catch, bind, User_findOne, compare_password, ret,
    login_form_of.
  cbn [login_username login_password].
  destruct (find (fun u => (username u =? cred_username body)%string) (users db))
    as [u|]; [|reflexivity].
  destruct (bcrypt_compare (cred_password body) (password u)); reflexivity.
Qed.

(** For passwords sent as strings the two failures are answered alike: the
    username of a stored user with a password that [bcrypt.compare]
    rejects, and a username that no stored user has, both get status 400,
    the login page and the one message. *)
Lemma login_text_failures_alike db session (known unknown : Credentials) u :
  User_findOne (cred_username known) db = (Returned (Some u), db) ->
  bcrypt_compare (cred_password known) (password u) = false ->
  User_findOne (cred_username unknown) db = (Returned None, db) ->
  post_login bcrypt_compare session known db = ((login_rejected, session), db)
  /\ post_login bcrypt_compare session unknown db = ((login_rejected, session), db).
Proof.
  intros Hknown Hwrong Hunknown.
  unfold User_findOne in Hknown, Hunknown.
  injection Hknown as Hknown. injection Hunknown as Hunknown.
  rewrite !post_login_credentials, Hknown, Hunknown, Hwrong. auto.
Qed.

(** C6. The handler answers both failures from one branch with one
    message, but it reaches [bcrypt.compare] only after it has found the
    user, and [bcrypt.compare] throws on a password that is missing or not
    a string.  So a login without a usable password field is answered with
    the status 500 error page when the username is stored, and with the
    status 400 login page when it is not, whatever was sent as password:
    the two answers differ, and tell which usernames exist.  With a
    password sent as a string that [bcrypt.compare] rejects, the stored
    username gets the status 400 login page as well. *)
Theorem login_missing_password_reveals_username db session uname unknown sent u :
  User_findOne uname db = (Returned (Some u), db) ->
  User_findOne unknown db = (Returned None, db) ->
  post_login bcrypt_compare session (mkLoginForm uname None) db
    = ((login_error, session), db)
  /\ post_login bcrypt_compare session (mkLoginForm unknown sent) db
     = ((login_rejected, session), db)
  /\ login_error <> login_rejected
  /\ (forall p, bcrypt_compare p (password u) = false ->
       post_login bcrypt_compare session (mkLoginForm uname (Some p)) db
       = ((login_rejected, session), db)).
Proof.
  intros Hknown Hunknown.
  unfold post_login, try_catch, bind, compare_password, ret, throw.
  cbn [login_username login_password]. rewrite Hknown, Hunknown.
  split; [reflexivity|]. split; [reflexivity|]. split; [discriminate|].
  intros p Hp. now rewrite Hp.
Qed.

Lemma existsb_username_of_member db u :
  In u (users db) ->
  existsb (fun x => (username x =? username u)%string) (users db) = true.
Proof.
  intros Hin. apply existsb_exists. exists u. split; [exact Hin|].
  apply String.eqb_refl.
Qed.

(** C7, as the handler behaves. Registration under the username of a stored
    user never succeeds and writes nothing: the database after the request
    is the database before it, so that user's stored password hash is what
    it was, and the answer is never the redirect of a successful
    registration.  The handler has no answer of its own for a taken
    username: when both fields are filled in, the refused insert is
    answered by the registration error page (status 500) that [catch] gives
    whatever was thrown, and when a field is empty the answer is the
    status 400 page for missing fields. *)
Theorem register_existing_username salt body db u :
  In u (users db) ->
  cred_username body = username u ->
  snd (post_register bcrypt_hash salt body db) = db
  /\ stored_password (snd (post_register bcrypt_hash salt body db)) (user_id u)
     = stored_password db (user_id u)
  /\ isRedirect (fst (post_register bcrypt_hash salt body db)) = false
  /\ (truthy (cred_username body) && truthy (cred_password body) = true ->
      fst (post_register bcrypt_hash salt body db) = register_failed)
  /\ (truthy (cred_username body) && truthy (cred_password body) = false ->
      fst (post_register bcrypt_hash salt body db) = register_invalid).
Proof.
  intros Hin Hname.
  assert (Hrun : post_register bcrypt_hash salt body db =
                 (if truthy (cred_username body) && truthy (cred_password body)
                  then register_failed else register_invalid, db)).
  { unfold post_register, try_catch, bind, User_create, ret.
    destruct (truthy (cred_username body) && truthy (cred_password body));
      [|reflexivity].
    rewrite Hname, (existsb_username_of_member db u Hin). reflexivity. }
  rewrite Hrun. cbn [fst snd].
  split; [reflexivity|]. split; [reflexivity|].
  destruct (truthy (cred_username body) && truthy (cred_password body));
    repeat split; try reflexivity; discriminate.
Qed.

Lemma write_changes_keeps_password chU user' (l : list User) :
  map password (map (write_changes chU false user') l) = map password l.
Proof.
  induction l as [|x l IH]; [reflexivity|].
  cbn [map]. rewrite IH. f_equal.
  unfold write_changes. destruct (user_id x =? user_id user'); reflexivity.
Qed.

Lemma write_changes_sets_password chU user' (l : list User) :
  map password (map (write_changes chU true user') l) =
  map (fun x => if user_id x =? user_id user' then password user'
                else password x) l.
Proof.
  induction l as [|x l IH]; [reflexivity|].
  cbn [map]. rewrite IH. f_equal.
  unfold write_changes. destruct (user_id x =? user_id user'); reflexivity.
Qed.

Lemma user_update_unchanged_password salt user data db :
  changed_password user data = false ->
  map password (users (snd (user_update bcrypt_hash salt user data db))) =
  map password (users db).
Proof.
  intros Hch. unfold user_update. rewrite Hch.
  match goal with |- context [if ?b then _ else _] => destruct b end;
    cbn [snd set_users users]; [reflexivity|].
  apply write_changes_keeps_password.
Qed.

(** C8. The password column under [user.update]:
    - when the update does not change the password (none is given, or the
      one given is the loaded value), every stored password is left as it
      was;
    - when it changes the password and the write goes through, the row of
      the user stores [bcrypt.hash] of the new password with 10 rounds, and
      the rows of the other users keep theirs;
    - when the write is refused nothing is stored at all.
    A profile form without a new password leaves every stored password as
    it was. *)
Theorem user_update_password_column salt user data db :
  (changed_password user data = false ->
   map password (users (snd (user_update bcrypt_hash salt user data db))) =
   map password (users db))
  /\ (forall p user',
        upd_password data = Some p ->
        changed_password user data = true ->
        fst (user_update bcrypt_hash salt user data db) = Returned user' ->
        map password (users (snd (user_update bcrypt_hash salt user data db))) =
        map (fun x => if user_id x =? user_id user then bcrypt_hash p 10 salt
                      else password x) (users db))
  /\ (forall e,
        fst (user_update bcrypt_hash salt user data db) = Thrown e ->
        snd (user_update bcrypt_hash salt user data db) = db)
  /\ (forall session form,
        truthy (newPassword form) = false ->
        map password
          (users (snd (post_profile_update bcrypt_hash bcrypt_compare salt
                         session form db))) =
        map password (users db)).
Proof.
  split; [apply user_update_unchanged_password|].
  split; [|split].
  - intros p user' Hp Hch. unfold user_update. rewrite Hch.
    match goal with |- context [if ?b then _ else _] => destruct b end;
      cbn [fst snd set_users users]; [discriminate|].
    intros _. rewrite write_changes_sets_password.
    unfold User_beforeUpdate, set_password, user_set. rewrite Hp.
    reflexivity.
  - intros e. unfold user_update.
    match goal with |- context [if ?b then _ else _] => destruct b end;
      cbn [fst snd]; [reflexivity | discriminate].
  - intros session form Hnew.
    unfold post_profile_update, requireAuth.
    destruct session as [su|]; [|reflexivity].
    unfold try_catch, bind at 1, User_findByPk.
    unfold bind at 1, profile_updateData. rewrite Hnew.
    unfold ret at 1.
    destruct (find (fun u => user_id u =? session_id su) (users db)) as [u|];
      [|reflexivity].
    unfold bind.
    pose proof (user_update_unchanged_password salt u
                  (mkUpdateData (form_username form) None) db eq_refl) as Hframe.
    destruct (user_update bcrypt_hash salt u
                (mkUpdateData (form_username form) None) db) as [[x|e] db'];
      exact Hframe.
Qed.

(** C10. A profile form with a new password, sent by a signed-in user whose
    row is stored: when the current password is missing or [bcrypt.compare]
    rejects it, the answer is status 400 with the profile page and its
    error, and the database is left as it was; hence whenever the user
    table differs after the request, the current password was given and
    accepted. *)
Theorem profile_password_change_needs_current salt su form db u :
  User_findByPk (session_id su) db = (Returned (Some u), db) ->
  truthy (newPassword form) = true ->
  (truthy (currentPassword form) = false
   \/ bcrypt_compare (currentPassword form) (password u) = false ->
   post_profile_update bcrypt_hash bcrypt_compare salt (Some su) form db =
     (profile_rejected (Some u), db))
  /\ (users (snd (post_profile_update bcrypt_hash bcrypt_compare salt
                    (Some su) form db)) <> users db ->
      truthy (currentPassword form) = true
      /\ bcrypt_compare (currentPassword form) (password u) = true).
Proof.
  intros Hu Hnew.
  assert (Hrej :
    truthy (currentPassword form) = false
    \/ bcrypt_compare (currentPassword form) (password u) = false ->
    post_profile_update bcrypt_hash bcrypt_compare salt (Some su) form db =
      (profile_rejected (Some u), db)).
  { intros Hbad.
    unfold post_profile_update, requireAuth, try_catch, bind at 1.
    rewrite Hu. unfold bind, profile_updateData. rewrite Hnew.
    destruct (truthy (currentPassword form)); [|reflexivity].
    destruct Hbad as [Hbad|Hbad]; [discriminate|].
    rewrite Hbad. reflexivity. }
  split; [exact Hrej|].
  intros Hdiff.
  destruct (truthy (currentPassword form)) eqn:Hcur;
    [|exfalso; apply Hdiff; rewrite Hrej by auto; reflexivity].
  destruct (bcrypt_compare (currentPassword form) (password u)) eqn:Hcmp;
    [auto|].
  exfalso. apply Hdiff. rewrite Hrej by auto. reflexivity.
Qed.

End AccountFacts.

(** ** The account theorems on the sample data *)

(** Anna's name and a name nobody has, both without a password. *)
Lemma login_missing_password_reveals_username_witness :
  post_login sample_compare None (mkLoginForm "anna" None) fresh_db
    = ((login_error, None), fresh_db)
  /\ post_login sample_compare None (mkLoginForm "nobody" None) fresh_db
     = ((login_rejected, None), fresh_db)
  /\ login_error <> login_rejected
  /\ (forall p, sample_compare p "h:secret" = false ->
       post_login sample_compare None (mkLoginForm "anna" (Some p)) fresh_db
       = ((login_rejected, None), fresh_db)).
Proof.
  apply (login_missing_password_reveals_username sample_compare fresh_db None
           "anna" "nobody" None anna); reflexivity.
Defined.

(** A second registration under Anna's name. *)
Lemma register_existing_username_witness :
  snd (post_register sample_hash tt (mkCredentials "anna" "other") fresh_db)
    = fresh_db
  /\ stored_password
       (snd (post_register sample_hash tt (mkCredentials "anna" "other") fresh_db)) 1
     = stored_password fresh_db 1
  /\ isRedirect
       (fst (post_register sample_hash tt (mkCredentials "anna" "other") fresh_db))
     = false
  /\ (truthy "anna" && truthy "other" = true ->
      fst (post_register sample_hash tt (mkCredentials "anna" "other") fresh_db)
      = register_failed)
  /\ (truthy "anna" && truthy "other" = false ->
      fst (post_register sample_hash tt (mkCredentials "anna" "other") fresh_db)
      = register_invalid).
Proof.
  apply (register_existing_username unit sample_hash tt
           (mkCredentials "anna" "other") fresh_db anna);
    [left; reflexivity | reflexivity].
Defined.

(** C7 as stated fails: a registration under Anna's name with an empty
    password is answered with the status 400 page for missing fields, the
    very answer a free username gets with an empty password; and with a
    password filled in it is answered with the status 500 registration
    error page, which names no duplicate. *)
Lemma register_taken_name_has_no_own_answer :
  has_username fresh_db "anna" = true
  /\ has_username fresh_db "carol" = false
  /\ post_register sample_hash tt (mkCredentials "anna" "") fresh_db
     = (Render 400 (RegisterPage "Логин и пароль обязательны" "Регистрация"),
        fresh_db)
  /\ post_register sample_hash tt (mkCredentials "carol" "") fresh_db
     = post_register sample_hash tt (mkCredentials "anna" "") fresh_db
  /\ post_register sample_hash tt (mkCredentials "anna" "other") fresh_db
     = (Render 500 (ErrorPage "Ошибка регистрации" "Ошибка"), fresh_db).
Proof. repeat split; reflexivity. Qed.

(** Anna renames herself, and Anna changes her password. *)
Lemma user_update_password_column_witness :
  map password
      (users (snd (user_update sample_hash tt anna
                     (mkUpdateData "anna2" None) fresh_db)))
    = ["h:secret"; "h:hunter2"]
  /\ map password
         (users (snd (user_update sample_hash tt anna
                        (mkUpdateData "anna" (Some "new")) fresh_db)))
     = ["h:new"; "h:hunter2"].
Proof.
  split.
  - exact (proj1 (user_update_password_column unit sample_hash sample_compare tt anna
                    (mkUpdateData "anna2" None) fresh_db) eq_refl).
  - exact (proj1 (proj2 (user_update_password_column unit sample_hash sample_compare
                           tt anna (mkUpdateData "anna" (Some "new")) fresh_db))
                 "new" (mkUser 1 "anna" "h:new" "client")
                 eq_refl eq_refl eq_refl).
Defined.

(** Anna asks for a new password with a wrong current one. *)
Lemma profile_password_change_needs_current_witness :
  (truthy "wrong" = false \/ sample_compare "wrong" "h:secret" = false ->
   post_profile_update sample_hash sample_compare tt (Some anna_session)
     (mkProfileForm "anna" "wrong" "new") fresh_db =
     (profile_rejected (Some anna), fresh_db))
  /\ (users (snd (post_profile_update sample_hash sample_compare tt
                    (Some anna_session) (mkProfileForm "anna" "wrong" "new")
                    fresh_db)) <> users fresh_db ->
      truthy "wrong" = true /\ sample_compare "wrong" "h:secret" = true).
Proof.
  apply (profile_password_change_needs_current unit sample_hash sample_compare tt
           anna_session (mkProfileForm "anna" "wrong" "new") fresh_db anna);
    reflexivity.
Defined.

(** ** The handlers on their success paths *)

Example login_accepts_password :
  post_login sample_compare None (mkCredentials "anna" "secret") fresh_db =
    ((Redirect "/", Some anna_session), fresh_db).
Proof. reflexivity. Qed.

Example register_new_user :
  post_register sample_hash tt (mkCredentials "carol" "pw") fresh_db =
    (Redirect "/login",
     mkDB [anna; boris; mkUser 3 "carol" "h:pw" "client"] [tourA; tourB] [] []
          4 1 1).
Proof. reflexivity. Qed.

Example register_rejects_empty_password :
  post_register sample_hash tt (mkCredentials "carol" "") fresh_db =
    (register_invalid, fresh_db).
Proof. reflexivity. Qed.

Example profile_changes_password :
  post_profile_update sample_hash sample_compare tt (Some anna_session)
    (mkProfileForm "anna" "secret" "new") fresh_db =
    (Redirect "/profile",
     mkDB [mkUser 1 "anna" "h:new" "client"; boris] [tourA; tourB] [] [] 3 1 1).
Proof. reflexivity. Qed.

Example profile_refuses_taken_username :
  post_profile_update sample_hash sample_compare tt (Some anna_session)
    (mkProfileForm "boris" "" "") fresh_db =
    (profile_failed, fresh_db).
Proof. reflexivity. Qed.

Example remove_own_line :
  post_cart_remove (Some anna_session) 2 anna_cart_db =
    (cart_remove_ok,
     mkDB [anna; boris] [tourA; tourB] [mkCart 1 1] [mkCartItem 1 2 1 1] 3 2 3).
Proof. reflexivity. Qed.

Example add_existing_line :
  post_cart_add strict_storage (Some anna_session) 1 anna_cart_db =
    (cart_add_ok,
     mkDB [anna; boris] [tourA; tourB] [mkCart 1 1]
          [mkCartItem 1 3 1 1; mkCartItem 2 1 1 2] 3 2 3).
Proof. reflexivity. Qed.

Example view_without_cart :
  get_cart (Some boris_session) anna_cart_db =
    (Render 200 (CartPage [] 0%float boris_session "Корзина"), anna_cart_db).
Proof. reflexivity. Qed.

(** Two interleaved adds on a line with quantity 2 both read 2 and both
    write 3. *)
Example interleaved_adds_from_present :
  cartItems
    (snd (run_schedule strict_storage [0; 1; 0; 1; 0; 1]%nat
            [new_request 1 1; new_request 1 1] anna_cart_db)) =
    [mkCartItem 1 3 1 1; mkCartItem 2 1 1 2]
  /\ cartItems
       (snd (run_schedule strict_storage (serial_schedule 2)
               [new_request 1 1; new_request 1 1] anna_cart_db)) =
     [mkCartItem 1 4 1 1; mkCartItem 2 1 1 2].
Proof. split; reflexivity. Qed.

(** * Further properties of the handlers *)

(** ** The writes of the cart handlers *)

Lemma distinctb_snoc {A} (eqb : A -> A -> bool) (l : list A) (x : A) :
  distinctb eqb (l ++ [x]) =
  distinctb eqb l && negb (existsb (fun y => eqb y x) l).
Proof.
  induction l as [|a l IH]; [reflexivity|].
  cbn [app distinctb existsb]. rewrite IH, existsb_app. cbn [existsb].
  rewrite orb_false_r.
  destruct (existsb (eqb a) l), (eqb a x), (distinctb eqb l),
    (existsb (fun y => eqb y x) l); reflexivity.
Qed.

Lemma distinctb_map_stable {A} (eqb : A -> A -> bool) (f : A -> A) (l : list A) :
  (forall a b, eqb (f a) (f b) = eqb a b) ->
  distinctb eqb (map f l) = distinctb eqb l.
Proof.
  intros Hf. induction l as [|a l IH]; [reflexivity|].
  cbn [map distinctb]. rewrite IH. f_equal. f_equal.
  clear IH. induction l as [|b l IH]; [reflexivity|].
  cbn [map existsb]. now rewrite Hf, IH.
Qed.

Lemma existsb_filter_false {A} (q p : A -> bool) (l : list A) :
  existsb q l = false -> existsb q (filter p l) = false.
Proof.
  induction l as [|a l IH]; [reflexivity|].
  cbn [existsb filter]. intros H. apply orb_false_elim in H.
  destruct H as [Ha Hl]. destruct (p a); cbn [existsb]; [rewrite Ha|]; auto.
Qed.

Lemma distinctb_filter {A} (eqb : A -> A -> bool) (p : A -> bool) (l : list A) :
  distinctb eqb l = true -> distinctb eqb (filter p l) = true.
Proof.
  induction l as [|a l IH]; [reflexivity|].
  cbn [distinctb filter]. intros H. apply andb_prop in H.
  destruct H as [Ha Hl]. destruct (p a); [|auto].
  cbn [distinctb]. rewrite (IH Hl), andb_true_r.
  apply negb_true_iff. apply existsb_filter_false.
  now apply negb_true_iff.
Qed.

Lemma distinctb_map_filter {A} (f : A -> Z) (p : A -> bool) (l : list A) :
  distinctb Z.eqb (map f l) = true ->
  distinctb Z.eqb (map f (filter p l)) = true.
Proof.
  induction l as [|a l IH]; [reflexivity|].
  cbn [map distinctb filter]. intros H. apply andb_prop in H.
  destruct H as [Ha Hl]. destruct (p a); [|auto].
  cbn [map distinctb]. rewrite (IH Hl), andb_true_r.
  apply negb_true_iff. apply negb_true_iff in Ha.
  clear IH Hl. induction l as [|b l IH]; [reflexivity|].
  cbn [map existsb filter] in *. apply orb_false_elim in Ha.
  destruct Ha as [Hb Hl]. destruct (p b); cbn [map existsb];
    [rewrite Hb|]; auto.
Qed.

Lemma snd_try_catch {A} (body : Store A) (h : Exn -> A) db :
  snd (try_catch body h db) = snd (body db).
Proof.
  unfold try_catch. destruct (body db) as [[a|e] db']; reflexivity.
Qed.

Section CartWrites.

Variable opts : StorageOptions.

(** What [Cart.findOne] followed by [Cart.create] leaves: the cart of the
    user in hand, found or appended, or the unchanged tables after a
    refused insert. *)
Lemma cart_phase_cases uid db :
  match userCart db uid with
  | Some c => In c (carts db)
  | None =>
      Cart_create opts uid db = (Thrown ForeignKeyConstraintError, db)
      \/ Cart_create opts uid db =
           (Returned (mkCart (nextCartId db) uid),
            set_carts db (carts db ++ [mkCart (nextCartId db) uid])
                      (nextCartId db + 1))
  end.
Proof.
  destruct (userCart db uid) as [c|] eqn:Hc.
  - unfold userCart in Hc. apply find_some in Hc. tauto.
  - unfold Cart_create.
    destruct (foreignKeys opts && negb (user_exists db uid)); auto.
Qed.

(** What the handler does from [CartItem.findOne] on: nothing, an insert
    of the new line when there is none for the pair, or an update of the
    line found. *)
Lemma cart_add_line_cases c tid db :
  snd (cart_add_line opts c tid db) = db
  \/ (find (line_matches (cart_id c) tid) (cartItems db) = None
      /\ (foreignKeys opts = true -> tour_exists db tid = true)
      /\ snd (cart_add_line opts c tid db) =
           set_cartItems db (cartItems db ++ [added_line db c tid])
                         (nextItemId db + 1))
  \/ (exists l,
        find (line_matches (cart_id c) tid) (cartItems db) = Some l
        /\ snd (cart_add_line opts c tid db) =
             set_cartItems db
               (map (set_quantity (item_id l) (quantity l + 1)) (cartItems db))
               (nextItemId db)).
Proof.
  unfold cart_add_line, bind, CartItem_findOne, CartItem_create,
    cartItem_update, ret.
  destruct (find (line_matches (cart_id c) tid) (cartItems db)) as [l|] eqn:Hf.
  - right. right. exists l. split; reflexivity.
  - destruct (foreignKeys opts
              && negb (cart_exists db (cart_id c) && tour_exists db tid)) eqn:Hfk;
      [left; reflexivity|].
    destruct (throughUnique opts
              && existsb (line_matches (cart_id c) tid) (cartItems db));
      [left; reflexivity|].
    right. left. split; [reflexivity|]. split; [|reflexivity].
    intros Hon. rewrite Hon in Hfk. cbn in Hfk.
    apply negb_false_iff in Hfk. apply andb_prop in Hfk. tauto.
Qed.

(** The add handler writes in three ways only.  A property of the tables
    kept by the append of a cart for a user without one, by the append of
    a line to a stored cart without a line for the tour, and by the update
    of the quantity of a line found, is kept by the handler. *)
Lemma post_cart_add_preserves (P : DB -> Prop) :
  (forall db uid,
     userCart db uid = None -> P db ->
     P (set_carts db (carts db ++ [mkCart (nextCartId db) uid])
                  (nextCartId db + 1))) ->
  (forall db c tid,
     In c (carts db) ->
     find (line_matches (cart_id c) tid) (cartItems db) = None ->
     (foreignKeys opts = true -> tour_exists db tid = true) ->
     P db ->
     P (set_cartItems db (cartItems db ++ [added_line db c tid])
                      (nextItemId db + 1))) ->
  (forall db c tid l,
     find (line_matches (cart_id c) tid) (cartItems db) = Some l -> P db ->
     P (set_cartItems db
          (map (set_quantity (item_id l) (quantity l + 1)) (cartItems db))
          (nextItemId db))) ->
  forall session tid db, P db -> P (snd (post_cart_add opts session tid db)).
Proof.
  intros Hcart Hnew Hupd session tid db HP.
  destruct session as [su|]; [|exact HP].
  unfold post_cart_add, requireAuth. rewrite snd_try_catch.
  rewrite cart_add_body_split.
  assert (Hline : forall c db1, In c (carts db1) -> P db1 ->
                    P (snd (cart_add_line opts c tid db1))).
  { intros c db1 Hin HP1.
    destruct (cart_add_line_cases c tid db1)
      as [E | [(Hf & Ht & E) | (l & Hf & E)]]; rewrite E; eauto. }
  pose proof (cart_phase_cases (session_id su) db) as Hphase.
  destruct (userCart db (session_id su)) as [c|] eqn:Hc.
  - apply Hline; assumption.
  - unfold bind. destruct Hphase as [E|E]; rewrite E; [exact HP|].
    apply Hline.
    + cbn. apply in_or_app. right. left. reflexivity.
    + apply Hcart; assumption.
Qed.

End CartWrites.

(** ** Invariants kept by the cart handlers *)

Lemma existsb_map_key {A} (f : A -> Z) (k : Z) (l : list A) :
  existsb (fun y => y =? k) (map f l) = existsb (fun a => f a =? k) l.
Proof.
  induction l as [|a l IH]; [reflexivity|]. cbn [map existsb]. now rewrite IH.
Qed.

Lemma forallb_below_absent {A} (f : A -> Z) (n : Z) (l : list A) :
  forallb (fun a => f a <? n) l = true ->
  existsb (fun y => y =? n) (map f l) = false.
Proof.
  induction l as [|a l IH]; [reflexivity|].
  cbn [forallb map existsb]. intros H. apply andb_prop in H.
  destruct H as [Ha Hl]. rewrite (IH Hl), orb_false_r.
  apply Z.ltb_lt in Ha. apply Z.eqb_neq. lia.
Qed.

Lemma forallb_below_succ {A} (f : A -> Z) (n : Z) (l : list A) :
  forallb (fun a => f a <? n) l = true ->
  forallb (fun a => f a <? n + 1) l = true.
Proof.
  rewrite !forallb_forall. intros H a Ha. specialize (H a Ha).
  apply Z.ltb_lt in H. apply Z.ltb_lt. lia.
Qed.

Lemma map_item_id_set_quantity i q (l : list CartItem) :
  map item_id (map (set_quantity i q) l) = map item_id l.
Proof.
  induction l as [|a l IH]; [reflexivity|]. cbn [map]. rewrite IH. f_equal.
  unfold set_quantity. destruct (item_id a =? i); reflexivity.
Qed.

Lemma forallb_map_set_quantity (p : CartItem -> bool) i q (l : list CartItem) :
  (forall a, p (set_quantity i q a) = p a) ->
  forallb p (map (set_quantity i q) l) = forallb p l.
Proof.
  intros Hp. induction l as [|a l IH]; [reflexivity|].
  cbn [map forallb]. now rewrite Hp, IH.
Qed.

Lemma forallb_filter_true {A} (p q : A -> bool) (l : list A) :
  forallb p l = true -> forallb p (filter q l) = true.
Proof.
  rewrite !forallb_forall. intros H a Ha. apply filter_In in Ha. apply H, Ha.
Qed.

Section CartInvariants.

Variable opts : StorageOptions.

(** X1. An add request that runs with no other request between its
    storage calls keeps carts unique per user: it appends a cart only for
    a user for whom [Cart.findOne] found none.  Requests of one user that
    interleave between [Cart.findOne] and [Cart.create] are not covered:
    each may find no cart and create one. *)
Theorem add_keeps_one_cart_per_user session tid db :
  one_cart_per_user db = true ->
  one_cart_per_user (snd (post_cart_add opts session tid db)) = true.
Proof.
  revert session tid db.
  apply (post_cart_add_preserves opts (fun db => one_cart_per_user db = true)).
  - intros db uid Hnone H. unfold one_cart_per_user in *.
    cbn [set_carts carts]. rewrite map_app. cbn [map UserId].
    rewrite distinctb_snoc, H, existsb_map_key.
    unfold userCart in Hnone. now rewrite (find_none_existsb _ _ Hnone).
  - intros db c tid _ _ _ H. exact H.
  - intros db c tid l _ H. exact H.
Qed.

Lemma same_pair_line_matches l y :
  same_pair y l = line_matches (CartId l) (TourId l) y.
Proof. reflexivity. Qed.

(** X2. An add request and a remove request that run with no other
    request between their storage calls keep lines unique per pair (cart,
    tour), with or without the unique pair in the storage layer: the add
    inserts a line only when [CartItem.findOne] found none for the pair,
    and otherwise rewrites a quantity.  Interleaved adds are not covered
    here: without the unique pair in the storage layer two of them can
    both insert. *)
Theorem cart_handlers_keep_one_line_per_pair session tid itemId db :
  one_line_per_pair db = true ->
  one_line_per_pair (snd (post_cart_add opts session tid db)) = true
  /\ one_line_per_pair (snd (post_cart_remove session itemId db)) = true.
Proof.
  intros Hinv. split.
  - revert session tid db Hinv.
    apply (post_cart_add_preserves opts (fun db => one_line_per_pair db = true)).
    + intros db uid _ H. exact H.
    + intros db c tid _ Hnone _ H. unfold one_line_per_pair in *.
      cbn [set_cartItems cartItems]. rewrite distinctb_snoc, H.
      cbn [andb]. apply negb_true_iff.
      exact (find_none_existsb _ _ Hnone).
    + intros db c tid l _ H. unfold one_line_per_pair in *.
      cbn [set_cartItems cartItems].
      rewrite distinctb_map_stable; [exact H|].
      intros a b. unfold same_pair, set_quantity.
      destruct (item_id a =? item_id l), (item_id b =? item_id l); reflexivity.
  - destruct session as [su|]; [|exact Hinv].
    unfold one_line_per_pair in *. cbn. now apply distinctb_filter.
Qed.

(** X3. The add handler and the remove handler keep every quantity at 1 or
    more: a new line starts at 1 and an update writes the quantity read
    plus 1. *)
Theorem cart_handlers_keep_quantities_positive session tid itemId db :
  quantities_positive db = true ->
  quantities_positive (snd (post_cart_add opts session tid db)) = true
  /\ quantities_positive (snd (post_cart_remove session itemId db)) = true.
Proof.
  intros Hinv. split.
  - revert session tid db Hinv.
    apply (post_cart_add_preserves opts (fun db => quantities_positive db = true)).
    + intros db uid _ H. exact H.
    + intros db c tid _ _ _ H. unfold quantities_positive in *.
      cbn [set_cartItems cartItems]. rewrite forallb_app, H. reflexivity.
    + intros db c tid l Hf H. unfold quantities_positive in *.
      cbn [set_cartItems cartItems].
      apply find_some in Hf. destruct Hf as [Hin _].
      pose proof (proj1 (forallb_forall _ _) H l Hin) as Hq.
      apply Z.leb_le in Hq.
      apply forallb_forall. intros x Hx. apply in_map_iff in Hx.
      destruct Hx as (y & <- & Hy).
      pose proof (proj1 (forallb_forall _ _) H y Hy) as Hqy.
      unfold set_quantity. destruct (item_id y =? item_id l); [|exact Hqy].
      cbn [quantity]. apply Z.leb_le. lia.
  - destruct session as [su|]; [|exact Hinv].
    unfold quantities_positive in *. cbn. now apply forallb_filter_true.
Qed.

Lemma cart_exists_set_cartItems db ls n cid :
  cart_exists (set_cartItems db ls n) cid = cart_exists db cid.
Proof. reflexivity. Qed.

Lemma tour_exists_set_cartItems db ls n tid :
  tour_exists (set_cartItems db ls n) tid = tour_exists db tid.
Proof. reflexivity. Qed.

(** X4. The add handler and the remove handler keep every line in a stored
    cart; and when the storage layer enforces foreign keys they keep every
    line on a tour of the catalog. *)
Theorem cart_handlers_keep_references session tid itemId db :
  (lines_in_carts db = true ->
   lines_in_carts (snd (post_cart_add opts session tid db)) = true
   /\ lines_in_carts (snd (post_cart_remove session itemId db)) = true)
  /\ (foreignKeys opts = true -> lines_on_tours db = true ->
      lines_on_tours (snd (post_cart_add opts session tid db)) = true
      /\ lines_on_tours (snd (post_cart_remove session itemId db)) = true).
Proof.
  split.
  - intros Hinv. split.
    + revert session tid db Hinv.
      apply (post_cart_add_preserves opts (fun db => lines_in_carts db = true)).
      * intros db uid _ H. unfold lines_in_carts, cart_exists in *.
        cbn [set_carts carts cartItems].
        rewrite forallb_forall in *. intros l Hl.
        rewrite existsb_app, (H l Hl). reflexivity.
      * intros db c tid Hin _ _ H. unfold lines_in_carts in *.
        cbn [set_cartItems cartItems].
        rewrite forallb_app. apply andb_true_intro. split.
        -- exact H.
        -- cbn [forallb added_line CartId]. rewrite andb_true_r.
           rewrite cart_exists_set_cartItems. unfold cart_exists.
           apply existsb_exists. exists c. split; [exact Hin|].
           apply Z.eqb_refl.
      * intros db c tid l _ H. unfold lines_in_carts in *.
        cbn [set_cartItems cartItems].
        rewrite forallb_map_set_quantity.
        -- exact H.
        -- intros a. unfold set_quantity.
           destruct (item_id a =? item_id l); reflexivity.
    + destruct session as [su|]; [|exact Hinv].
      unfold lines_in_carts in *. cbn [post_cart_remove requireAuth].
      rewrite snd_try_catch. cbn.
      apply forallb_filter_true.
      exact Hinv.
  - intros Hfk Hinv. split.
    + revert session tid db Hinv.
      apply (post_cart_add_preserves opts (fun db => lines_on_tours db = true)).
      * intros db uid _ H. exact H.
      * intros db c tid _ _ Ht H. unfold lines_on_tours in *.
        cbn [set_cartItems cartItems].
        rewrite forallb_app. apply andb_true_intro. split.
        -- exact H.
        -- cbn [forallb added_line TourId]. rewrite andb_true_r.
           rewrite tour_exists_set_cartItems. exact (Ht Hfk).
      * intros db c tid l _ H. unfold lines_on_tours in *.
        cbn [set_cartItems cartItems].
        rewrite forallb_map_set_quantity.
        -- exact H.
        -- intros a. unfold set_quantity.
           destruct (item_id a =? item_id l); reflexivity.
    + destruct session as [su|]; [|exact Hinv].
      unfold lines_on_tours in *. cbn [post_cart_remove requireAuth].
      rewrite snd_try_catch. cbn.
      apply forallb_filter_true.
      exact Hinv.
Qed.

End CartInvariants.

(** ** Primary keys *)

Lemma distinct_keys_inj {A} (f : A -> Z) (l : list A) (a b : A) :
  distinctb Z.eqb (map f l) = true ->
  In a l -> In b l -> f a = f b -> a = b.
Proof.
  induction l as [|x l IH]; [contradiction|].
  cbn [map distinctb]. intros H Ha Hb Hab.
  apply andb_prop in H. destruct H as [Hx Hl].
  apply negb_true_iff in Hx.
  assert (Hfresh : forall y, In y l -> f x <> f y).
  { intros y Hy E.
    assert (existsb (Z.eqb (f x)) (map f l) = true) as Hex.
    { apply existsb_exists. exists (f y). split; [now apply in_map|].
      now apply Z.eqb_eq. }
    congruence. }
  destruct Ha as [<-|Ha], Hb as [<-|Hb]; auto.
  - exfalso. exact (Hfresh b Hb Hab).
  - exfalso. exact (Hfresh a Ha (eq_sym Hab)).
Qed.

Section Keys.

Variable opts : StorageOptions.

Lemma keys_ok_parts db :
  keys_ok db = true <->
  distinctb Z.eqb (map cart_id (carts db)) = true
  /\ forallb (fun c => cart_id c <? nextCartId db) (carts db) = true
  /\ distinctb Z.eqb (map item_id (cartItems db)) = true
  /\ forallb (fun l => item_id l <? nextItemId db) (cartItems db) = true.
Proof.
  unfold keys_ok. rewrite !andb_true_iff. tauto.
Qed.

Lemma keys_ok_cart_append db uid :
  keys_ok db = true ->
  keys_ok (set_carts db (carts db ++ [mkCart (nextCartId db) uid])
                     (nextCartId db + 1)) = true.
Proof.
  intros H. apply keys_ok_parts in H.
  destruct H as (Hc & Hcn & Hi & Hin). apply keys_ok_parts.
  cbn [set_carts carts cartItems nextCartId nextItemId].
  rewrite map_app, forallb_app. cbn [map forallb cart_id].
  rewrite distinctb_snoc, Hc, (forallb_below_succ _ _ _ Hcn).
  rewrite (forallb_below_absent cart_id _ _ Hcn).
  repeat split; auto.
  rewrite andb_true_r. apply Z.ltb_lt. lia.
Qed.

Lemma keys_ok_line_append db c tid :
  keys_ok db = true ->
  keys_ok (set_cartItems db (cartItems db ++ [added_line db c tid])
                         (nextItemId db + 1)) = true.
Proof.
  intros H. apply keys_ok_parts in H.
  destruct H as (Hc & Hcn & Hi & Hin). apply keys_ok_parts.
  cbn [set_cartItems carts cartItems nextCartId nextItemId].
  rewrite map_app, forallb_app.
  cbn [map forallb added_line item_id].
  rewrite distinctb_snoc, Hi, (forallb_below_succ _ _ _ Hin).
  rewrite (forallb_below_absent item_id _ _ Hin).
  repeat split; auto.
  rewrite andb_true_r. apply Z.ltb_lt. lia.
Qed.

Lemma keys_ok_update db i q :
  keys_ok db = true ->
  keys_ok (set_cartItems db (map (set_quantity i q) (cartItems db))
                         (nextItemId db)) = true.
Proof.
  intros H. apply keys_ok_parts in H.
  destruct H as (Hc & Hcn & Hi & Hin). apply keys_ok_parts.
  cbn [set_cartItems carts cartItems nextCartId nextItemId].
  rewrite map_item_id_set_quantity.
  repeat split; auto.
  rewrite forallb_map_set_quantity; [exact Hin|].
  intros a. unfold set_quantity. destruct (item_id a =? i); reflexivity.
Qed.

(** X5. Primary keys of carts and lines stay distinct and below the counters
    under the add handler and the remove handler. *)
Theorem cart_handlers_keep_keys session tid itemId db :
  keys_ok db = true ->
  keys_ok (snd (post_cart_add opts session tid db)) = true
  /\ keys_ok (snd (post_cart_remove session itemId db)) = true.
Proof.
  intros Hinv. split.
  - revert session tid db Hinv.
    apply (post_cart_add_preserves opts (fun db => keys_ok db = true)).
    + intros db uid _ H. now apply keys_ok_cart_append.
    + intros db c tid _ _ _ H. now apply keys_ok_line_append.
    + intros db c tid l _ H. now apply keys_ok_update.
  - destruct session as [su|]; [|exact Hinv].
    apply keys_ok_parts in Hinv.
    destruct Hinv as (Hc & Hcn & Hi & Hin). apply keys_ok_parts.
    cbn. repeat split; auto.
    + now apply distinctb_map_filter.
    + now apply forallb_filter_true.
Qed.

End Keys.

(** ** One user's add and another user's cart *)

Lemma userCart_after_append db uid other :
  uid <> other ->
  userCart (set_carts db (carts db ++ [mkCart (nextCartId db) uid])
                      (nextCartId db + 1)) other
  = userCart db other.
Proof.
  intros Hne. unfold userCart. cbn [set_carts carts].
  destruct (find (fun c => UserId c =? other) (carts db)) as [c|] eqn:Hf.
  - exact (find_app_some _ _ _ _ Hf).
  - rewrite (find_app_none _ _ _ Hf). cbn.
    destruct (Z.eqb_spec uid other); [contradiction | reflexivity].
Qed.

Lemma userCart_own_after_append db uid :
  userCart db uid = None ->
  userCart (set_carts db (carts db ++ [mkCart (nextCartId db) uid])
                      (nextCartId db + 1)) uid
  = Some (mkCart (nextCartId db) uid).
Proof.
  intros Hnone. unfold userCart in *. cbn [set_carts carts].
  rewrite (find_app_none _ _ _ Hnone). cbn. now rewrite Z.eqb_refl.
Qed.

Lemma flat_map_map_stable {A B} (f : A -> list B) (g : A -> A) (l : list A) :
  (forall a, In a l -> f (g a) = f a) -> flat_map f (map g l) = flat_map f l.
Proof.
  induction l as [|a l IH]; intros H; [reflexivity|].
  cbn [map flat_map]. rewrite H by (left; reflexivity).
  rewrite IH; [reflexivity|]. intros b Hb. apply H. now right.
Qed.

(** The page that GET /cart renders is a function of the user's cart and
    the rows joined to it. *)
Lemma get_cart_congruence su db1 db2 :
  userCart db1 (session_id su) = userCart db2 (session_id su) ->
  (forall c, userCart db1 (session_id su) = Some c ->
             cartTours db1 c = cartTours db2 c) ->
  fst (get_cart (Some su) db1) = fst (get_cart (Some su) db2).
Proof.
  intros Hc Hrows.
  unfold get_cart, requireAuth, try_catch, bind, Cart_findOne_include, ret.
  rewrite <- Hc.
  destruct (userCart db1 (session_id su)) as [c|]; [|reflexivity].
  cbn [option_map fst Tours]. now rewrite (Hrows c eq_refl).
Qed.

Section Isolation.

Variable opts : StorageOptions.

(** The writes of the add handler for a given user and tour. *)
Lemma post_cart_add_writes (P : DB -> Prop) su tid :
  (forall db,
     userCart db (session_id su) = None -> P db ->
     P (set_carts db (carts db ++ [mkCart (nextCartId db) (session_id su)])
                  (nextCartId db + 1))) ->
  (forall db c,
     userCart db (session_id su) = Some c ->
     find (line_matches (cart_id c) tid) (cartItems db) = None ->
     P db ->
     P (set_cartItems db (cartItems db ++ [added_line db c tid])
                      (nextItemId db + 1))) ->
  (forall db c l,
     userCart db (session_id su) = Some c ->
     find (line_matches (cart_id c) tid) (cartItems db) = Some l -> P db ->
     P (set_cartItems db
          (map (set_quantity (item_id l) (quantity l + 1)) (cartItems db))
          (nextItemId db))) ->
  forall db, P db -> P (snd (post_cart_add opts (Some su) tid db)).
Proof.
  intros Hcart Hnew Hupd db HP.
  unfold post_cart_add, requireAuth. rewrite snd_try_catch.
  rewrite cart_add_body_split.
  assert (Hline : forall c db1, userCart db1 (session_id su) = Some c -> P db1 ->
                    P (snd (cart_add_line opts c tid db1))).
  { intros c db1 Hc HP1.
    destruct (cart_add_line_cases opts c tid db1)
      as [E | [(Hf & Ht & E) | (l & Hf & E)]]; rewrite E; eauto. }
  pose proof (cart_phase_cases opts (session_id su) db) as Hphase.
  destruct (userCart db (session_id su)) as [c|] eqn:Hc.
  - apply Hline; assumption.
  - unfold bind. destruct Hphase as [E|E]; rewrite E; [exact HP|].
    apply Hline.
    + now apply userCart_own_after_append.
    + apply Hcart; assumption.
Qed.

(** X6. An add by one user changes nothing of what GET /cart renders for
    another user, when primary keys are distinct and below the counters. *)
Theorem add_leaves_other_carts_alone su other tid db :
  keys_ok db = true ->
  session_id su <> session_id other ->
  fst (get_cart (Some other) (snd (post_cart_add opts (Some su) tid db)))
  = fst (get_cart (Some other) db).
Proof.
  intros Hkeys Hne.
  set (page := fst (get_cart (Some other) db)).
  assert (Hgoal :
    keys_ok (snd (post_cart_add opts (Some su) tid db)) = true
    /\ fst (get_cart (Some other) (snd (post_cart_add opts (Some su) tid db)))
       = page); [|tauto].
  apply (post_cart_add_writes
           (fun d => keys_ok d = true /\ fst (get_cart (Some other) d) = page));
    [| | |split; [exact Hkeys | reflexivity]].
  - (* a cart is appended for [su] *)
    intros d Hnone [Hk Hpage]. split.
    + now apply keys_ok_cart_append.
    + rewrite <- Hpage. apply get_cart_congruence.
      * now apply userCart_after_append.
      * intros c _. reflexivity.
  - (* a line is appended to the cart of [su] *)
    intros d c Hc Hnone [Hk Hpage]. split.
    + now apply keys_ok_line_append.
    + rewrite <- Hpage. apply get_cart_congruence; [reflexivity|].
      intros c' Hc'. cbn [userCart set_cartItems carts] in Hc'.
      unfold cartTours. cbn [set_cartItems cartItems].
      rewrite flat_map_app. cbn [flat_map added_line CartId].
      destruct (Z.eqb_spec (cart_id c) (cart_id c')) as [E|_];
        [|now rewrite !app_nil_r].
      exfalso. apply keys_ok_parts in Hk. destruct Hk as (Hcd & _).
      unfold userCart in Hc, Hc'. apply find_some in Hc, Hc'.
      destruct Hc as [Hin1 Hu1], Hc' as [Hin2 Hu2].
      pose proof (distinct_keys_inj cart_id _ c c' Hcd Hin1 Hin2 E) as <-.
      apply Z.eqb_eq in Hu1, Hu2. congruence.
  - (* the quantity of a line of the cart of [su] is rewritten *)
    intros d c l Hc Hfound [Hk Hpage]. split.
    + now apply keys_ok_update.
    + rewrite <- Hpage. apply get_cart_congruence; [reflexivity|].
      intros c' Hc'. cbn [userCart set_cartItems carts] in Hc'.
      unfold cartTours. cbn [set_cartItems cartItems].
      apply flat_map_map_stable. intros a Ha.
      unfold set_quantity.
      destruct (Z.eqb_spec (item_id a) (item_id l)) as [E|_]; [|reflexivity].
      apply keys_ok_parts in Hk. destruct Hk as (Hcd & _ & Hi & _).
      apply find_some in Hfound. destruct Hfound as [Hl Hm].
      pose proof (distinct_keys_inj item_id _ a l Hi Ha Hl E) as ->.
      cbn [CartId TourId quantity].
      unfold line_matches in Hm. apply andb_prop in Hm.
      destruct Hm as [Hm _]. apply Z.eqb_eq in Hm.
      destruct (Z.eqb_spec (CartId l) (cart_id c')) as [E'|_]; [|reflexivity].
      exfalso.
      unfold userCart in Hc, Hc'. apply find_some in Hc, Hc'.
      destruct Hc as [Hin1 Hu1], Hc' as [Hin2 Hu2].
      assert (cart_id c = cart_id c') as Eid by congruence.
      pose proof (distinct_keys_inj cart_id _ c c' Hcd Hin1 Hin2 Eid) as <-.
      apply Z.eqb_eq in Hu1, Hu2. congruence.
Qed.

End Isolation.

(** ** Removing lines that are not there, and removing twice *)

Lemma set_cartItems_same db :
  set_cartItems db (cartItems db) (nextItemId db) = db.
Proof. destruct db; reflexivity. Qed.

Lemma filter_all {A} (p : A -> bool) (l : list A) :
  existsb (fun a => negb (p a)) l = false -> filter p l = l.
Proof.
  induction l as [|a l IH]; [reflexivity|].
  cbn [existsb filter]. intros H. apply orb_false_elim in H.
  destruct H as [Ha Hl]. apply negb_false_iff in Ha. rewrite Ha, IH; auto.
Qed.

Lemma filter_idem {A} (p : A -> bool) (l : list A) :
  filter p (filter p l) = filter p l.
Proof.
  induction l as [|a l IH]; [reflexivity|].
  cbn [filter]. destruct (p a) eqn:E; [|exact IH].
  cbn [filter]. now rewrite E, IH.
Qed.

(** X7. Removing a line id that no line has is not an error: the answer is the
    success payload and the database is left as it was. *)
Theorem remove_absent_line_is_noop su itemId db :
  has_line db itemId = false ->
  post_cart_remove (Some su) itemId db = (cart_remove_ok, db).
Proof.
  intros Hno. unfold has_line in Hno.
  unfold post_cart_remove, requireAuth, try_catch, bind, CartItem_destroy, ret.
  rewrite filter_all.
  - now rewrite set_cartItems_same.
  - erewrite <- Hno. clear Hno.
    induction (cartItems db) as [|a l IH]; [reflexivity|].
    cbn [existsb]. now rewrite negb_involutive, IH.
Qed.

(** X8. Removing the same line id a second time changes nothing more and
    gives the same answer. *)
Theorem remove_twice_is_remove_once session itemId db :
  post_cart_remove session itemId (snd (post_cart_remove session itemId db))
  = post_cart_remove session itemId db.
Proof.
  destruct session as [su|]; [|reflexivity].
  unfold post_cart_remove, requireAuth, try_catch, bind, CartItem_destroy, ret.
  cbn [snd set_cartItems cartItems nextItemId]. unfold set_cartItems.
  cbn [users tours carts cartItems nextUserId nextCartId nextItemId].
  now rewrite filter_idem.
Qed.

(** ** Adding a tour and taking it out again *)

Lemma filter_keeps_below (n : Z) (l : list CartItem) :
  forallb (fun a => item_id a <? n) l = true ->
  filter (fun a => negb (item_id a =? n)) l = l.
Proof.
  induction l as [|a l IH]; [reflexivity|].
  cbn [forallb filter]. intros H. apply andb_prop in H.
  destruct H as [Ha Hl]. apply Z.ltb_lt in Ha.
  destruct (Z.eqb_spec (item_id a) n); [lia|]. cbn [negb]. now rewrite IH.
Qed.

Section AddThenRemove.

Variable opts : StorageOptions.

(** X9. From a state without a line for the pair, an add followed by the
    removal of the line id the add allocates gives back the lines as they
    were, whether the add went through or was refused. *)
Theorem add_then_remove_restores_lines su tid db :
  keys_ok db = true ->
  db_wf db = true ->
  linesFor db (session_id su) tid = [] ->
  cartItems
    (snd (post_cart_remove (Some su) (nextItemId db)
            (snd (post_cart_add opts (Some su) tid db))))
  = cartItems db.
Proof.
  intros Hk Hwf Habs.
  apply keys_ok_parts in Hk. destruct Hk as (_ & _ & _ & Hbelow).
  assert (Hline : forall c db1,
            cartItems db1 = cartItems db -> nextItemId db1 = nextItemId db ->
            filter (line_matches (cart_id c) tid) (cartItems db1) = [] ->
            cartItems
              (snd (post_cart_remove (Some su) (nextItemId db)
                      (snd (cart_add_line opts c tid db1))))
            = cartItems db).
  { intros c db1 Hitems Hnext Hnone.
    pose proof (filter_nil_find_none _ _ Hnone) as Hfind.
    destruct (cart_add_line_cases opts c tid db1)
      as [E | [(_ & _ & E) | (l & Hf & _)]]; [| |congruence]; rewrite E.
    - cbn. rewrite Hitems. now apply filter_keeps_below.
    - cbn. rewrite filter_app, Hitems. unfold added_line.
      cbn [filter item_id]. rewrite Hnext, Z.eqb_refl. cbn [negb]. rewrite app_nil_r.
      now apply filter_keeps_below. }
  unfold post_cart_add, requireAuth. rewrite snd_try_catch.
  rewrite cart_add_body_split.
  unfold linesFor in Habs.
  pose proof (cart_phase_cases opts (session_id su) db) as Hphase.
  destruct (userCart db (session_id su)) as [c|] eqn:Hc.
  - now apply Hline.
  - unfold bind. destruct Hphase as [E|E]; rewrite E.
    + cbn. now apply filter_keeps_below.
    + apply Hline; [reflexivity | reflexivity |].
      exact (wf_no_line_of_next_cart db tid Hwf).
Qed.

End AddThenRemove.

(** ** The cart page after an add *)

Lemma get_cart_page su db :
  get_cart (Some su) db =
    (Render 200
       (CartPage (cart_items db (session_id su))
                 (reduce_total (cart_items db (session_id su)))
                 su "Корзина"),
     db).
Proof.
  unfold get_cart, requireAuth, try_catch, bind, Cart_findOne_include, ret,
    cart_items.
  destruct (userCart db (session_id su)); reflexivity.
Qed.

Lemma findTour_exists db tid t :
  findTour db tid = Some t -> tour_exists db tid = true.
Proof.
  intros H. unfold findTour in H. unfold tour_exists.
  apply (find_some_existsb _ _ _ _ H). apply find_some in H. tauto.
Qed.

Lemma cartTours_no_lines db c :
  filter (fun l => CartId l =? cart_id c) (cartItems db) = [] ->
  cartTours db c = [].
Proof.
  unfold cartTours. induction (cartItems db) as [|l ls IH]; [reflexivity|].
  cbn [filter flat_map]. destruct (CartId l =? cart_id c); [discriminate|].
  exact IH.
Qed.

Lemma wf_no_line_in_next_cart db :
  db_wf db = true ->
  filter (fun l => CartId l =? nextCartId db) (cartItems db) = [].
Proof.
  unfold db_wf. intros H. apply andb_prop in H. destruct H as [_ H].
  induction (cartItems db) as [|l ls IH]; [reflexivity|].
  cbn [forallb filter] in *. apply andb_prop in H. destruct H as [Hl Hls].
  apply Z.ltb_lt in Hl.
  destruct (Z.eqb_spec (CartId l) (nextCartId db)); [lia | auto].
Qed.

Lemma reduce_total_snoc items r :
  reduce_total (items ++ [r]) =
  PrimFloat.add (reduce_total items)
    (PrimFloat.mul (price (row_tour r)) (Z2float (row_quantity r))).
Proof. unfold reduce_total. now rewrite fold_left_app. Qed.

Lemma cartTours_line_append db c l n :
  cartTours (set_cartItems db (cartItems db ++ [l]) n) c =
  cartTours db c
  ++ (if CartId l =? cart_id c then
        match findTour db (TourId l) with
        | Some t => [mkCartRow t (quantity l)]
        | None => []
        end
      else []).
Proof.
  unfold cartTours. cbn [set_cartItems cartItems].
  rewrite flat_map_app. cbn [flat_map]. now rewrite app_nil_r.
Qed.

Section AddThenView.

Variable opts : StorageOptions.

(** X10. After an add of a catalog tour for which the cart had no line, the
    cart page lists the rows it listed before followed by the tour with
    quantity 1, and its total is the total before plus the tour's price
    times 1. *)
Theorem add_shows_on_cart_page su tid t db :
  db_wf db = true ->
  user_exists db (session_id su) = true ->
  findTour db tid = Some t ->
  linesFor db (session_id su) tid = [] ->
  fst (get_cart (Some su) (snd (post_cart_add opts (Some su) tid db))) =
    Render 200
      (CartPage (cart_items db (session_id su) ++ [mkCartRow t 1])
                (PrimFloat.add (reduce_total (cart_items db (session_id su)))
                               (PrimFloat.mul (price t) 1%float))
                su "Корзина").
Proof.
  intros Hwf Hu Ht Habs.
  pose proof (findTour_exists db tid t Ht) as Hex.
  rewrite get_cart_page. cbn [fst].
  assert (Hitems :
    cart_items (snd (post_cart_add opts (Some su) tid db)) (session_id su)
    = cart_items db (session_id su) ++ [mkCartRow t 1]).
  { unfold linesFor in Habs. unfold cart_items.
    destruct (userCart db (session_id su)) as [c|] eqn:Hc.
    - rewrite (add_creates_line opts db su tid c Hc Habs Hex). cbn [snd].
      change (userCart (set_cartItems db
                          (cartItems db ++ [added_line db c tid])
                          (nextItemId db + 1)) (session_id su))
        with (userCart db (session_id su)).
      rewrite Hc, cartTours_line_append.
      cbn [added_line CartId TourId quantity].
      now rewrite Z.eqb_refl, Ht.
    - rewrite (add_creates_cart_and_line opts db su tid Hc Hwf Hu Hex).
      cbn [snd].
      set (c := mkCart (nextCartId db) (session_id su)).
      set (db1 := set_carts db (carts db ++ [c]) (nextCartId db + 1)).
      change (userCart (set_cartItems db1
                          (cartItems db ++ [added_line db c tid])
                          (nextItemId db + 1)) (session_id su))
        with (userCart db1 (session_id su)).
      unfold db1 at 1, c at 1. rewrite (userCart_own_after_append _ _ Hc).
      fold c.
      change (cartItems db) with (cartItems db1).
      rewrite cartTours_line_append.
      cbn [added_line CartId TourId quantity].
      rewrite Z.eqb_refl.
      change (findTour db1 tid) with (findTour db tid). rewrite Ht.
      change (cartTours db1 c) with (cartTours db c).
      now rewrite (cartTours_no_lines db c (wf_no_line_in_next_cart db Hwf)). }
  rewrite Hitems, reduce_total_snoc. reflexivity.
Qed.

End AddThenView.

(** ** Accounts: what registration and profile updates keep *)

Lemma distinctb_NoDup {A} (eqb : A -> A -> bool) (l : list A) :
  (forall a b, eqb a b = true <-> a = b) ->
  distinctb eqb l = true <-> NoDup l.
Proof.
  intros Hspec. induction l as [|x l IH].
  - split; [constructor | reflexivity].
  - cbn [distinctb]. rewrite andb_true_iff, negb_true_iff, IH. split.
    + intros [Hx Hl]. constructor; [|exact Hl]. intros Hin.
      assert (existsb (eqb x) l = true) as Hex; [|congruence].
      apply existsb_exists. exists x. split; [exact Hin|]. now apply Hspec.
    + intros H. inversion H as [|? ? Hx Hl]; subst. split; [|exact Hl].
      destruct (existsb (eqb x) l) eqn:Hex; [|reflexivity].
      apply existsb_exists in Hex. destruct Hex as (y & Hy & Hxy).
      apply Hspec in Hxy. subst y. contradiction.
Qed.

Lemma NoDup_snoc {A} (l : list A) (x : A) :
  NoDup l -> ~ In x l -> NoDup (l ++ [x]).
Proof.
  induction l as [|a l IH]; intros Hl Hx.
  - constructor; [intros []|constructor].
  - inversion Hl as [|? ? Ha Hl']; subst. cbn [app]. constructor.
    + intros Hin. apply in_app_or in Hin. destruct Hin as [Hin|[<-|[]]].
      * contradiction.
      * apply Hx. now left.
    + apply IH; [exact Hl'|]. intros Hin. apply Hx. now right.
Qed.

Lemma accounts_ok_parts db :
  accounts_ok db = true <->
  NoDup (map username (users db))
  /\ NoDup (map user_id (users db))
  /\ (forall u, In u (users db) -> user_id u < nextUserId db).
Proof.
  unfold accounts_ok. rewrite !andb_true_iff.
  rewrite (distinctb_NoDup String.eqb) by apply String.eqb_eq.
  rewrite (distinctb_NoDup Z.eqb) by apply Z.eqb_eq.
  rewrite forallb_forall.
  split; intros ((H1 & H2) & H3) || intros (H1 & H2 & H3);
    repeat split; auto; intros u Hu; specialize (H3 u Hu);
    [apply Z.ltb_lt | apply Z.ltb_lt]; exact H3.
Qed.

Lemma NoDup_map_inj {A B} (f : A -> B) (l : list A) (a b : A) :
  NoDup (map f l) -> In a l -> In b l -> f a = f b -> a = b.
Proof.
  induction l as [|x l IH]; [contradiction|].
  cbn [map]. intros H Ha Hb Hab. inversion H as [|? ? Hx Hl]; subst.
  destruct Ha as [<-|Ha], Hb as [<-|Hb]; auto.
  - exfalso. apply Hx. rewrite Hab. now apply in_map.
  - exfalso. apply Hx. rewrite <- Hab. now apply in_map.
Qed.

Lemma map_user_id_write_changes chU chP user' (l : list User) :
  map user_id (map (write_changes chU chP user') l) = map user_id l.
Proof.
  induction l as [|x l IH]; [reflexivity|]. cbn [map]. rewrite IH. f_equal.
  unfold write_changes. destruct (user_id x =? user_id user'); reflexivity.
Qed.

Lemma write_changes_other chU chP user' x :
  user_id x <> user_id user' -> write_changes chU chP user' x = x.
Proof.
  intros H. unfold write_changes.
  destruct (Z.eqb_spec (user_id x) (user_id user')); [contradiction|reflexivity].
Qed.

Lemma write_changes_same_name chP user' (l : list User) :
  map username (map (write_changes false chP user') l) = map username l.
Proof.
  induction l as [|x l IH]; [reflexivity|]. cbn [map]. rewrite IH. f_equal.
  unfold write_changes. destruct (user_id x =? user_id user'); reflexivity.
Qed.

(** Renaming the rows with one primary key to a name no other row has
    keeps the names distinct. *)
Lemma write_changes_rename_NoDup chP user' (l : list User) :
  NoDup (map user_id l) ->
  NoDup (map username l) ->
  (forall x, In x l -> user_id x <> user_id user' ->
             username x <> username user') ->
  NoDup (map username (map (write_changes true chP user') l)).
Proof.
  induction l as [|x l IH]; intros Hid Hname Hfree; [constructor|].
  cbn [map] in *. inversion Hid as [|? ? Hx Hl]; subst.
  inversion Hname as [|? ? Hnx Hnl]; subst.
  assert (IH' := IH Hl Hnl (fun y Hy => Hfree y (or_intror Hy))).
  constructor; [|exact IH'].
  intros Hin. apply in_map_iff in Hin. destruct Hin as (y' & Hy' & Hin).
  apply in_map_iff in Hin. destruct Hin as (y & <- & Hy).
  unfold write_changes in Hy'.
  destruct (Z.eqb_spec (user_id y) (user_id user')) as [Ey|Ny];
    destruct (Z.eqb_spec (user_id x) (user_id user')) as [Ex|Nx];
    cbn [username] in Hy'.
  - apply Hx. rewrite Ex, <- Ey. now apply in_map.
  - exact (Hfree x (or_introl eq_refl) Nx (eq_sym Hy')).
  - exact (Hfree y (or_intror Hy) Ny Hy').
  - apply Hnx. rewrite <- Hy'. now apply in_map.
Qed.

Section AccountInvariants.

Variable Salt : Type.
Variable bcrypt_hash : string -> Z -> Salt -> string.
Variable bcrypt_compare : string -> string -> bool.

(** The three outcomes of a registration. *)
Lemma post_register_outcomes salt body db :
  post_register bcrypt_hash salt body db =
    if truthy (cred_username body) && truthy (cred_password body) then
      if existsb (fun u => (username u =? cred_username body)%string) (users db)
      then (register_failed, db)
      else (Redirect "/login",
            set_users db
              (users db ++
               [mkUser (nextUserId db) (cred_username body)
                       (bcrypt_hash (cred_password body) 10 salt) "client"])
              (nextUserId db + 1))
    else (register_invalid, db).
Proof.
  unfold post_register, try_catch, bind, User_create, ret.
  destruct (truthy (cred_username body)) eqn:Hu; [|reflexivity].
  destruct (truthy (cred_password body)) eqn:Hp; [|reflexivity].
  cbn [andb].
  destruct (existsb (fun u => (username u =? cred_username body)%string)
                    (users db)); [reflexivity|].
  unfold User_beforeCreate. cbn [password]. rewrite Hp. reflexivity.
Qed.

(** What [user.update] leaves in the user table. *)
Lemma user_update_cases salt u data db :
  snd (user_update bcrypt_hash salt u data db) = db
  \/ ((changed_username u data = true ->
       forall x, In x (users db) -> user_id x <> user_id u ->
                 username x <> upd_username data)
      /\ snd (user_update bcrypt_hash salt u data db) =
           set_users db
             (map (write_changes (changed_username u data)
                     (changed_password u data)
                     (User_beforeUpdate bcrypt_hash salt (changed_password u data)
                        (user_set u data)))
                  (users db))
             (nextUserId db)).
Proof.
  unfold user_update.
  match goal with |- context [if ?b then _ else _] => destruct b eqn:Hchk end;
    [left; reflexivity|].
  right. split; [|reflexivity].
  intros HchU x Hx Hid Hname. rewrite HchU in Hchk. cbn [andb] in Hchk.
  assert (existsb
            (fun u0 => negb (user_id u0 =? user_id u)
                       && (username u0 =?
                           username (User_beforeUpdate bcrypt_hash salt
                                       (changed_password u data)
                                       (user_set u data)))%string)
            (users db) = true) as Hex; [|congruence].
  apply existsb_exists. exists x. split; [exact Hx|].
  apply andb_true_intro. split.
  - apply negb_true_iff. now apply Z.eqb_neq.
  - apply String.eqb_eq. rewrite Hname.
    unfold User_beforeUpdate. destruct (changed_password u data); reflexivity.
Qed.

(** POST /profile/update of a signed-in user, path by path. *)
Lemma post_profile_update_paths salt su form db :
  post_profile_update bcrypt_hash bcrypt_compare salt (Some su) form db =
    match find (fun x => user_id x =? session_id su) (users db) with
    | Some u =>
        if truthy (newPassword form) then
          if negb (truthy (currentPassword form)) then
            (profile_rejected (Some u), db)
          else if negb (bcrypt_compare (currentPassword form) (password u)) then
            (profile_rejected (Some u), db)
          else
            run_update bcrypt_hash salt u
              (mkUpdateData (form_username form) (Some (newPassword form))) db
        else run_update bcrypt_hash salt u (mkUpdateData (form_username form) None) db
    | None =>
        if truthy (newPassword form) && negb (truthy (currentPassword form))
        then (profile_rejected None, db)
        else (profile_failed, db)
    end.
Proof.
  unfold post_profile_update, requireAuth, try_catch, bind, User_findByPk,
    profile_updateData, ret, throw, run_update.
  cbv beta.
  destruct (find (fun x => user_id x =? session_id su) (users db)) as [u|].
  - destruct (truthy (newPassword form)).
    + destruct (negb (truthy (currentPassword form))); [reflexivity|].
      destruct (negb (bcrypt_compare (currentPassword form) (password u)));
        [reflexivity|].
      destruct (user_update bcrypt_hash salt u _ db) as [[x|e] db']; reflexivity.
    + destruct (user_update bcrypt_hash salt u _ db) as [[x|e] db']; reflexivity.
  - destruct (truthy (newPassword form)); [|reflexivity].
    destruct (negb (truthy (currentPassword form))); reflexivity.
Qed.

Lemma snd_run_update salt u data db :
  snd (run_update bcrypt_hash salt u data db) =
  snd (user_update bcrypt_hash salt u data db).
Proof.
  unfold run_update.
  destruct (user_update bcrypt_hash salt u data db) as [[x|e] db']; reflexivity.
Qed.

(** What POST /profile/update leaves: the database as it was, or the
    update of the row of the signed-in user. *)
Lemma post_profile_update_cases salt su form db :
  snd (post_profile_update bcrypt_hash bcrypt_compare salt (Some su) form db) = db
  \/ exists u data,
       find (fun x => user_id x =? session_id su) (users db) = Some u
       /\ upd_username data = form_username form
       /\ snd (post_profile_update bcrypt_hash bcrypt_compare salt (Some su)
                 form db)
          = snd (user_update bcrypt_hash salt u data db).
Proof.
  rewrite post_profile_update_paths.
  destruct (find (fun x => user_id x =? session_id su) (users db)) as [u|] eqn:Hu.
  - destruct (truthy (newPassword form)).
    + destruct (negb (truthy (currentPassword form))); [left; reflexivity|].
      destruct (negb (bcrypt_compare (currentPassword form) (password u)));
        [left; reflexivity|].
      right. exists u, (mkUpdateData (form_username form) (Some (newPassword form))).
      repeat split. apply snd_run_update.
    + right. exists u, (mkUpdateData (form_username form) None).
      repeat split. apply snd_run_update.
  - left.
    destruct (truthy (newPassword form) && negb (truthy (currentPassword form)));
      reflexivity.
Qed.

(** X15. Registration and profile updates keep usernames distinct and primary
    keys distinct and below the counter. *)
Theorem account_handlers_keep_accounts_ok salt body session form db :
  accounts_ok db = true ->
  accounts_ok (snd (post_register bcrypt_hash salt body db)) = true
  /\ accounts_ok
       (snd (post_profile_update bcrypt_hash bcrypt_compare salt session form db))
     = true.
Proof.
  intros Hok. split.
  - rewrite post_register_outcomes.
    destruct (truthy (cred_username body) && truthy (cred_password body));
      [|exact Hok].
    destruct (existsb (fun u => (username u =? cred_username body)%string)
                      (users db)) eqn:Hex; [exact Hok|].
    apply accounts_ok_parts in Hok. destruct Hok as (Hn & Hi & Hb).
    apply accounts_ok_parts. cbn [snd set_users users nextUserId].
    rewrite !map_app. cbn [map username user_id].
    repeat split.
    + apply NoDup_snoc; [exact Hn|]. intros Hin. apply in_map_iff in Hin.
      destruct Hin as (x & Hx & Hin).
      assert (existsb (fun u => (username u =? cred_username body)%string)
                      (users db) = true) as Hex'; [|congruence].
      apply existsb_exists. exists x. split; [exact Hin|].
      now apply String.eqb_eq.
    + apply NoDup_snoc; [exact Hi|]. intros Hin. apply in_map_iff in Hin.
      destruct Hin as (x & Hx & Hin). specialize (Hb x Hin). lia.
    + intros u Hu. apply in_app_or in Hu. destruct Hu as [Hu|[<-|[]]].
      * specialize (Hb u Hu). lia.
      * cbn. lia.
  - destruct session as [su|]; [|exact Hok].
    destruct (post_profile_update_cases salt su form db)
      as [E | (u & data & Hu & Hname & E)]; rewrite E; [exact Hok|].
    destruct (user_update_cases salt u data db) as [E'|[Hfree E']];
      rewrite E'; [exact Hok|].
    apply accounts_ok_parts in Hok. destruct Hok as (Hn & Hi & Hb).
    apply accounts_ok_parts. cbn [set_users users nextUserId].
    rewrite map_user_id_write_changes.
    repeat split; [|exact Hi|].
    + destruct (changed_username u data) eqn:HchU.
      * apply write_changes_rename_NoDup; [exact Hi | exact Hn|].
        intros x Hx Hid.
        replace (username (User_beforeUpdate bcrypt_hash salt
                             (changed_password u data) (user_set u data)))
          with (upd_username data)
          by (unfold User_beforeUpdate;
              destruct (changed_password u data); reflexivity).
        apply (Hfree eq_refl x Hx).
        replace (user_id (User_beforeUpdate bcrypt_hash salt
                            (changed_password u data) (user_set u data)))
          with (user_id u) in Hid
          by (unfold User_beforeUpdate;
              destruct (changed_password u data); reflexivity).
        exact Hid.
      * now rewrite write_changes_same_name.
    + intros x Hx. apply in_map_iff in Hx. destruct Hx as (y & <- & Hy).
      specialize (Hb y Hy). unfold write_changes.
      destruct (user_id y =? _); exact Hb.
Qed.

End AccountInvariants.

(** ** Accounts: round trips and frames *)

Lemma existsb_false_find_none {A} (p : A -> bool) (l : list A) :
  existsb p l = false -> find p l = None.
Proof.
  induction l as [|a l IH]; [reflexivity|].
  cbn [existsb find]. intros H. apply orb_false_elim in H.
  destruct H as [Ha Hl]. rewrite Ha. auto.
Qed.

Lemma filter_map_fixed {A} (p : A -> bool) (g : A -> A) (l : list A) :
  (forall a, p (g a) = p a) ->
  (forall a, p a = true -> g a = a) ->
  filter p (map g l) = filter p l.
Proof.
  intros Hp Hg. induction l as [|a l IH]; [reflexivity|].
  cbn [map filter]. rewrite Hp, IH.
  destruct (p a) eqn:E; [|reflexivity]. now rewrite (Hg a E).
Qed.

Lemma map_role_write_changes chU chP user' (l : list User) :
  map role (map (write_changes chU chP user') l) = map role l.
Proof.
  induction l as [|x l IH]; [reflexivity|]. cbn [map]. rewrite IH. f_equal.
  unfold write_changes. destruct (user_id x =? user_id user'); reflexivity.
Qed.

Section AccountRoundTrips.

Variable Salt : Type.
Variable bcrypt_hash : string -> Z -> Salt -> string.
Variable bcrypt_compare : string -> string -> bool.

Lemma user_id_beforeUpdate salt ch u data :
  user_id (User_beforeUpdate bcrypt_hash salt ch (user_set u data)) = user_id u.
Proof. unfold User_beforeUpdate. destruct ch; reflexivity. Qed.

Lemma username_beforeUpdate salt ch u data :
  username (User_beforeUpdate bcrypt_hash salt ch (user_set u data))
  = upd_username data.
Proof. unfold User_beforeUpdate. destruct ch; reflexivity. Qed.

(** The registered user is the one found under the username. *)
Lemma registered_user_found salt body db :
  truthy (cred_username body) = true ->
  truthy (cred_password body) = true ->
  existsb (fun u => (username u =? cred_username body)%string) (users db) = false ->
  fst (post_register bcrypt_hash salt body db) = Redirect "/login"
  /\ find (fun u => (username u =? cred_username body)%string)
          (users (snd (post_register bcrypt_hash salt body db)))
     = Some (mkUser (nextUserId db) (cred_username body)
                    (bcrypt_hash (cred_password body) 10 salt) "client").
Proof.
  intros Hu Hp Hfresh.
  rewrite post_register_outcomes, Hu, Hp, Hfresh. cbn [andb fst snd].
  split; [reflexivity|]. cbn [set_users users].
  rewrite (find_app_none _ _ _ (existsb_false_find_none _ _ Hfresh)).
  cbn [find username]. now rewrite String.eqb_refl.
Qed.

(** X16. Register, then log in. A registration with both fields filled in and a
    username nobody has redirects to /login; a login with the same
    credentials on the resulting database then succeeds, provided
    [bcrypt.compare] accepts the password against the hash just stored,
    and the session it opens carries the new user's id, the username and
    the role [client]. *)
Theorem register_then_login salt body session db :
  truthy (cred_username body) = true ->
  truthy (cred_password body) = true ->
  existsb (fun u => (username u =? cred_username body)%string) (users db) = false ->
  bcrypt_compare (cred_password body)
                 (bcrypt_hash (cred_password body) 10 salt) = true ->
  fst (post_register bcrypt_hash salt body db) = Redirect "/login"
  /\ post_login bcrypt_compare session body
       (snd (post_register bcrypt_hash salt body db))
     = ((Redirect "/",
         Some (mkSessionUser (nextUserId db) (cred_username body) "client")),
        snd (post_register bcrypt_hash salt body db)).
Proof.
  intros Hu Hp Hfresh Hcmp.
  destruct (registered_user_found salt body db Hu Hp Hfresh) as [Hreg Hfind].
  split; [exact Hreg|].
  rewrite post_login_credentials, Hfind.
  cbn [password user_id username role]. now rewrite Hcmp.
Qed.

(** X21. A user who registers and logs in is not let through the
    administrator gate: with the session that the login opens, the delete
    of a tour is answered with 403 and changes nothing. *)
Theorem registered_user_cannot_delete_tours
    (onTourDelete : Z -> list CartItem -> option (list CartItem))
    salt body session tourId db :
  truthy (cred_username body) = true ->
  truthy (cred_password body) = true ->
  existsb (fun u => (username u =? cred_username body)%string) (users db) = false ->
  bcrypt_compare (cred_password body)
                 (bcrypt_hash (cred_password body) 10 salt) = true ->
  let db1 := snd (post_register bcrypt_hash salt body db) in
  let session1 := snd (fst (post_login bcrypt_compare session body db1)) in
  post_delete_tour onTourDelete session1 tourId db1 = (forbidden, db1).
Proof.
  intros Hu Hp Hfresh Hcmp db1 session1. subst db1 session1.
  destruct (registered_user_found salt body db Hu Hp Hfresh) as [_ Hfind].
  rewrite post_login_credentials, Hfind.
  cbn [password user_id username role]. rewrite Hcmp.
  cbn [fst snd]. unfold post_delete_tour, requireRole.
  cbn [session_role]. reflexivity.
Qed.

(** X17. A profile update writes to the row of the signed-in user only: the
    rows of all other users, every primary key, every role, the catalog
    and the carts are left as they were. *)
Theorem profile_update_touches_own_row_only salt su form db :
  let db' := snd (post_profile_update bcrypt_hash bcrypt_compare salt
                    (Some su) form db) in
  filter (fun x => negb (user_id x =? session_id su)) (users db')
    = filter (fun x => negb (user_id x =? session_id su)) (users db)
  /\ map user_id (users db') = map user_id (users db)
  /\ map role (users db') = map role (users db)
  /\ tours db' = tours db
  /\ carts db' = carts db
  /\ cartItems db' = cartItems db.
Proof.
  intros db'. subst db'.
  destruct (post_profile_update_cases Salt bcrypt_hash bcrypt_compare salt su form db)
    as [E | (u & data & Hu & Hname & E)]; rewrite E; [repeat split|].
  destruct (user_update_cases Salt bcrypt_hash salt u data db) as [E'|[_ E']];
    rewrite E'; [repeat split|].
  cbn [set_users users tours carts cartItems].
  rewrite map_user_id_write_changes, map_role_write_changes.
  repeat split.
  apply find_some in Hu. destruct Hu as [_ Hid]. apply Z.eqb_eq in Hid.
  apply filter_map_fixed.
  - intros a. unfold write_changes.
    destruct (user_id a =? _); reflexivity.
  - intros a Ha. apply write_changes_other.
    rewrite user_id_beforeUpdate, Hid.
    apply negb_true_iff in Ha. now apply Z.eqb_neq.
Qed.

(** The user found by name after the update of the row of [u]. *)
Lemma find_renamed chP user' u (l : list User) :
  In u l ->
  user_id user' = user_id u ->
  (forall x, In x l -> user_id x = user_id u -> x = u) ->
  (forall x, In x l -> user_id x <> user_id u -> username x <> username user') ->
  find (fun x => (username x =? username user')%string)
       (map (write_changes (negb (username user' =? username u)%string) chP user') l)
  = Some (write_changes (negb (username user' =? username u)%string) chP user' u).
Proof.
  intros Hin Hid Huniq Hfree.
  induction l as [|x l IH]; [contradiction|].
  cbn [map find].
  destruct (Z.eq_dec (user_id x) (user_id u)) as [E|N].
  - assert (x = u) as -> by (apply Huniq; [now left | exact E]).
    assert ((username
               (write_changes (negb (username user' =? username u)%string)
                  chP user' u) =? username user')%string = true) as ->;
      [|reflexivity].
    unfold write_changes. rewrite Hid, Z.eqb_refl. cbn [username].
    destruct (String.eqb_spec (username user') (username u)) as [Eq|Nq];
      cbn [negb]; apply String.eqb_eq; congruence.
  - rewrite (write_changes_other _ _ _ x) by congruence.
    destruct (String.eqb_spec (username x) (username user')) as [Eq|_].
    + exfalso. exact (Hfree x (or_introl eq_refl) N Eq).
    + apply IH.
      * destruct Hin as [->|Hin]; [contradiction | exact Hin].
      * intros y Hy. apply Huniq. now right.
      * intros y Hy. apply Hfree. now right.
Qed.

(** X18. Change the password, then log in. When the profile update of a stored
    user with a new password different from the stored value is accepted
    (the answer is the redirect to /profile), a login under the submitted
    username with the new password succeeds, provided [bcrypt.compare]
    accepts it against the hash just stored, and the session carries the
    user's id, the submitted username and the user's role; a login with any
    password that [bcrypt.compare] rejects against that hash is refused. *)
Theorem password_change_round_trip salt su form db u session :
  accounts_ok db = true ->
  User_findByPk (session_id su) db = (Returned (Some u), db) ->
  truthy (newPassword form) = true ->
  (newPassword form =? password u)%string = false ->
  fst (post_profile_update bcrypt_hash bcrypt_compare salt (Some su) form db)
    = Redirect "/profile" ->
  let db' := snd (post_profile_update bcrypt_hash bcrypt_compare salt
                    (Some su) form db) in
  (bcrypt_compare (newPassword form)
                  (bcrypt_hash (newPassword form) 10 salt) = true ->
   post_login bcrypt_compare session
     (mkCredentials (form_username form) (newPassword form)) db'
   = ((Redirect "/",
       Some (mkSessionUser (user_id u) (form_username form) (role u))), db'))
  /\ (forall old,
        bcrypt_compare old (bcrypt_hash (newPassword form) 10 salt) = false ->
        post_login bcrypt_compare session
          (mkCredentials (form_username form) old) db'
        = ((login_rejected, session), db')).
Proof.
  intros Hok Hu Hnew Hdiff Hresp db'. subst db'.
  unfold User_findByPk in Hu. injection Hu as Hu.
  rewrite post_profile_update_paths in *. rewrite Hu, Hnew in *.
  destruct (negb (truthy (currentPassword form))); [discriminate|].
  destruct (negb (bcrypt_compare (currentPassword form) (password u)));
    [discriminate|].
  set (data := mkUpdateData (form_username form) (Some (newPassword form))) in *.
  assert (HchP : changed_password u data = true).
  { unfold changed_password, data. cbn [upd_password]. now rewrite Hdiff. }
  unfold run_update in *.
  destruct (user_update bcrypt_hash salt u data db) as [[x|e] db'] eqn:Hupd;
    [|discriminate].
  cbn [snd] in *.
  assert (Hdb' : db' =
            set_users db
              (map (write_changes (changed_username u data) true
                      (User_beforeUpdate bcrypt_hash salt true (user_set u data)))
                   (users db))
              (nextUserId db)
          /\ (changed_username u data = true ->
              forall y, In y (users db) -> user_id y <> user_id u ->
                        username y <> upd_username data)).
  { unfold user_update in Hupd. rewrite HchP in Hupd.
    match type of Hupd with
    | (if ?b then _ else _) = _ => destruct b eqn:Hchk; [discriminate|]
    end.
    injection Hupd as _ Hupd. split; [symmetry; exact Hupd|].
    intros HchU y Hy Hid Hname. rewrite HchU in Hchk. cbn [andb] in Hchk.
    assert (existsb
              (fun u0 => negb (user_id u0 =? user_id u)
                         && (username u0 =?
                             username (User_beforeUpdate bcrypt_hash salt true
                                         (user_set u data)))%string)
              (users db) = true) as Hex; [|congruence].
    apply existsb_exists. exists y. split; [exact Hy|].
    apply andb_true_intro. split.
    - apply negb_true_iff. now apply Z.eqb_neq.
    - apply String.eqb_eq. now rewrite Hname. }
  destruct Hdb' as [Hdb' Hfree]. clear Hresp.
  apply accounts_ok_parts in Hok. destruct Hok as (Hn & Hi & _).
  pose proof (find_some _ _ Hu) as [Hin Hpk].
  set (user' := User_beforeUpdate bcrypt_hash salt true (user_set u data)) in *.
  assert (Hfind :
    find (fun y => (username y =? form_username form)%string) (users db')
    = Some (mkUser (user_id u) (form_username form)
                   (bcrypt_hash (newPassword form) 10 salt) (role u))).
  { rewrite Hdb'. cbn [set_users users].
    assert (Hf := find_renamed true user' u (users db) Hin eq_refl).
    etransitivity; [apply Hf|].
    - intros y Hy E. exact (NoDup_map_inj user_id _ y u Hi Hy Hin E).
    - intros y Hy Hid.
      destruct (changed_username u data) eqn:Hch.
      + exact (Hfree eq_refl y Hy Hid).
      + unfold changed_username in Hch. apply negb_false_iff in Hch.
        apply String.eqb_eq in Hch. cbn [data upd_username] in Hch.
        change (username user') with (form_username form).
        rewrite Hch. intros E. apply Hid.
        now rewrite (NoDup_map_inj username _ y u Hn Hy Hin E).
    - f_equal. unfold write_changes.
      change (user_id user') with (user_id u). rewrite Z.eqb_refl.
      change (username user') with (form_username form).
      change (password user') with (bcrypt_hash (newPassword form) 10 salt).
      destruct (String.eqb_spec (form_username form) (username u)) as [E|_];
        cbn [negb]; [now rewrite E | reflexivity]. }
  split.
  - intros Hcmp. rewrite post_login_credentials.
    cbn [cred_username cred_password]. rewrite Hfind.
    cbn [password user_id username role]. now rewrite Hcmp.
  - intros old Hcmp. rewrite post_login_credentials.
    cbn [cred_username cred_password]. rewrite Hfind.
    cbn [password]. now rewrite Hcmp.
Qed.

End AccountRoundTrips.

(** ** Interleaved add requests: what holds under every schedule *)

Lemma replace_nth_Forall {A} (P : A -> Prop) (l : list A) i x :
  Forall P l -> P x -> Forall P (replace_nth i x l).
Proof.
  revert i. induction l as [|a l IH]; intros i Hl Hx; [destruct i; constructor|].
  inversion Hl; subst. destruct i; cbn [replace_nth]; constructor; auto.
Qed.

Lemma distinctb_at_most_one {A} (eqb : A -> A -> bool) (p : A -> bool) (l : list A) :
  (forall a b, p a = true -> p b = true -> eqb a b = true) ->
  distinctb eqb l = true -> (Datatypes.length (filter p l) <= 1)%nat.
Proof.
  intros Hp. induction l as [|a l IH]; [cbn; lia|].
  cbn [distinctb filter]. intros H. apply andb_prop in H.
  destruct H as [Ha Hl]. specialize (IH Hl).
  destruct (p a) eqn:Epa; [|exact IH].
  cbn [Datatypes.length].
  destruct (filter p l) as [|b rest] eqn:Ef; [cbn; lia|].
  exfalso. apply negb_true_iff in Ha.
  assert (In b (filter p l)) as Hb by (rewrite Ef; now left).
  apply filter_In in Hb. destruct Hb as [Hbl Hpb].
  assert (existsb (eqb a) l = true) as Hex; [|congruence].
  apply existsb_exists. exists b. split; [exact Hbl|]. now apply Hp.
Qed.

Section Interleaving.

Variable opts : StorageOptions.

(** The write of one storage step of an add request, whatever the request
    has read before. *)
Lemma add_step_cases u tid st db :
  snd (add_step opts u tid st db) = db
  \/ snd (add_step opts u tid st db) =
       set_carts db (carts db ++ [mkCart (nextCartId db) u]) (nextCartId db + 1)
  \/ (exists c,
        st = AtItemWrite c None
        /\ (throughUnique opts = true ->
            existsb (line_matches (cart_id c) tid) (cartItems db) = false)
        /\ snd (add_step opts u tid st db) =
             set_cartItems db (cartItems db ++ [added_line db c tid])
                           (nextItemId db + 1))
  \/ (exists c item,
        st = AtItemWrite c (Some item)
        /\ snd (add_step opts u tid st db) =
             set_cartItems db
               (map (set_quantity (item_id item) (quantity item + 1))
                    (cartItems db))
               (nextItemId db)).
Proof.
  destruct st as [| |c|c [item|]|r]; cbn [add_step].
  - left. unfold Cart_findOne. destruct (userCart db u); reflexivity.
  - unfold Cart_create.
    destruct (foreignKeys opts && negb (user_exists db u));
      [left | right; left]; reflexivity.
  - left. reflexivity.
  - right. right. right. exists c, item. split; reflexivity.
  - unfold CartItem_create.
    destruct (foreignKeys opts
              && negb (cart_exists db (cart_id c) && tour_exists db tid));
      [left; reflexivity|].
    destruct (throughUnique opts
              && existsb (line_matches (cart_id c) tid) (cartItems db)) eqn:Hu;
      [left; reflexivity|].
    right. right. left. exists c. split; [reflexivity|]. split; [|reflexivity].
    intros Hon. rewrite Hon in Hu. exact Hu.
  - left. reflexivity.
Qed.

(** A property of the database kept by every storage step of every request
    holds after every schedule. *)
Lemma run_schedule_preserves (P : DB -> Prop) :
  (forall r db, P db -> P (snd (request_step opts r db))) ->
  forall sched pool db, P db -> P (snd (run_schedule opts sched pool db)).
Proof.
  intros Hstep. induction sched as [|i sched IH]; intros pool db HP;
    [exact HP|].
  cbn [run_schedule]. destruct (nth_error pool i) as [r|]; [|now apply IH].
  specialize (Hstep r db HP).
  destruct (request_step opts r db) as [r' db']. now apply IH.
Qed.

Lemma snd_request_step r db :
  snd (request_step opts r db) =
  snd (add_step opts (req_user r) (req_tour r) (req_state r) db).
Proof.
  unfold request_step.
  destruct (add_step opts (req_user r) (req_tour r) (req_state r) db);
    reflexivity.
Qed.

(** X13. When the storage layer keeps the pair (cart, tour) unique, lines stay
    unique per pair under every schedule of add requests, whatever the
    requests have read so far: no pair ever has two lines. *)
Theorem interleaved_adds_keep_one_line_per_pair sched pool db :
  throughUnique opts = true ->
  one_line_per_pair db = true ->
  one_line_per_pair (snd (run_schedule opts sched pool db)) = true
  /\ forall u tid,
       (Datatypes.length (linesFor (snd (run_schedule opts sched pool db)) u tid)
        <= 1)%nat.
Proof.
  intros Huniq Hinv.
  assert (Hafter : one_line_per_pair (snd (run_schedule opts sched pool db)) = true).
  { revert sched pool db Hinv.
    apply (run_schedule_preserves (fun db => one_line_per_pair db = true)).
    intros r db H. rewrite snd_request_step.
    destruct (add_step_cases (req_user r) (req_tour r) (req_state r) db)
      as [E | [E | [(c & _ & Hfree & E) | (c & item & _ & E)]]]; rewrite E.
    - exact H.
    - exact H.
    - unfold one_line_per_pair in *. cbn [set_cartItems cartItems].
      rewrite distinctb_snoc, H. cbn [andb]. apply negb_true_iff.
      exact (Hfree Huniq).
    - unfold one_line_per_pair in *. cbn [set_cartItems cartItems].
      rewrite distinctb_map_stable; [exact H|].
      intros a b. unfold same_pair, set_quantity.
      destruct (item_id a =? item_id item), (item_id b =? item_id item);
        reflexivity. }
  split; [exact Hafter|].
  intros u tid. unfold linesFor.
  destruct (userCart _ u) as [c|]; [|cbn; lia].
  apply (distinctb_at_most_one same_pair); [|exact Hafter].
  intros a b Ha Hb. unfold line_matches, same_pair in *.
  apply andb_prop in Ha, Hb. destruct Ha as [Ha1 Ha2], Hb as [Hb1 Hb2].
  apply Z.eqb_eq in Ha1, Ha2, Hb1, Hb2.
  apply andb_true_intro. split; apply Z.eqb_eq; congruence.
Qed.

Lemma request_step_positive r db :
  quantities_positive db = true -> holds_positive r ->
  quantities_positive (snd (request_step opts r db)) = true
  /\ holds_positive (fst (request_step opts r db)).
Proof.
  intros Hq Hr. unfold request_step, holds_positive in *.
  destruct r as [u tid st]. cbn [req_user req_tour req_state] in *.
  destruct st as [| |c|c [item|]|resp]; cbn [add_step].
  - unfold Cart_findOne. destruct (userCart db u); cbn; auto.
  - unfold Cart_create.
    destruct (foreignKeys opts && negb (user_exists db u)); cbn; auto.
  - unfold CartItem_findOne. cbn [fst snd req_state]. split; [exact Hq|].
    destruct (find (line_matches (cart_id c) tid) (cartItems db)) as [l|] eqn:Hf;
      [|exact I].
    apply find_some in Hf. destruct Hf as [Hin _].
    unfold quantities_positive in Hq.
    apply Z.leb_le. exact (proj1 (forallb_forall _ _) Hq l Hin).
  - unfold cartItem_update. cbn [fst snd req_state]. split; [|exact I].
    unfold quantities_positive in *. cbn [set_cartItems cartItems].
    apply forallb_forall. intros x Hx. apply in_map_iff in Hx.
    destruct Hx as (y & <- & Hy).
    pose proof (proj1 (forallb_forall _ _) Hq y Hy) as Hqy.
    unfold set_quantity. destruct (item_id y =? item_id item); [|exact Hqy].
    cbn [quantity]. apply Z.leb_le. lia.
  - unfold CartItem_create.
    destruct (foreignKeys opts
              && negb (cart_exists db (cart_id c) && tour_exists db tid));
      [cbn; auto|].
    destruct (throughUnique opts
              && existsb (line_matches (cart_id c) tid) (cartItems db));
      [cbn; auto|].
    cbn [fst snd req_state]. split; [|exact I].
    unfold quantities_positive in *. cbn [set_cartItems cartItems].
    now rewrite forallb_app, Hq.
  - cbn. auto.
Qed.

(** X14. Under every schedule of add requests that start fresh, every quantity
    stays at 1 or more and primary keys stay distinct and below the
    counters, whatever the storage layer enforces: an interleaving can
    lose an increment but never stores a quantity below 1. *)
Theorem interleaved_adds_keep_quantities_and_keys sched reqs db :
  quantities_positive db = true ->
  keys_ok db = true ->
  let pool := map (fun ut => new_request (fst ut) (snd ut)) reqs in
  quantities_positive (snd (run_schedule opts sched pool db)) = true
  /\ keys_ok (snd (run_schedule opts sched pool db)) = true.
Proof.
  intros Hq Hk pool. split.
  - assert (Hpool : Forall holds_positive pool).
    { unfold pool. apply Forall_forall. intros r Hr.
      apply in_map_iff in Hr. destruct Hr as (ut & <- & _). exact I. }
    clearbody pool. clear Hk. revert pool db Hq Hpool.
    induction sched as [|i sched IH]; intros pool db Hq Hpool; [exact Hq|].
    cbn [run_schedule]. destruct (nth_error pool i) as [r|] eqn:Hr;
      [|now apply IH].
    assert (holds_positive r) as Hpos.
    { apply nth_error_In in Hr.
      exact (proj1 (Forall_forall _ _) Hpool r Hr). }
    destruct (request_step_positive r db Hq Hpos) as [Hq' Hr'].
    destruct (request_step opts r db) as [r' db']. cbn [fst snd] in *.
    apply IH; [exact Hq'|]. now apply replace_nth_Forall.
  - apply (run_schedule_preserves (fun d => keys_ok d = true)); [|exact Hk].
    clear. intros r db H. rewrite snd_request_step.
    destruct (add_step_cases (req_user r) (req_tour r) (req_state r) db)
      as [E | [E | [(c & _ & _ & E) | (c & item & _ & E)]]]; rewrite E.
    + exact H.
    + now apply keys_ok_cart_append.
    + now apply keys_ok_line_append.
    + now apply keys_ok_update.
Qed.

End Interleaving.

(** ** Deleting a tour *)

Lemma existsb_filter_out {A} (f : A -> Z) (k : Z) (l : list A) :
  existsb (fun a => f a =? k) (filter (fun a => negb (f a =? k)) l) = false.
Proof.
  induction l as [|a l IH]; [reflexivity|].
  cbn [filter]. destruct (f a =? k) eqn:E; cbn [negb existsb]; [exact IH|].
  now rewrite E, IH.
Qed.

Lemma find_filter_other {A} (f : A -> Z) (k k' : Z) (l : list A) :
  k' <> k ->
  find (fun a => f a =? k') (filter (fun a => negb (f a =? k)) l)
  = find (fun a => f a =? k') l.
Proof.
  intros Hne. induction l as [|a l IH]; [reflexivity|].
  cbn [filter find].
  destruct (Z.eqb_spec (f a) k) as [E|N]; cbn [negb].
  - destruct (Z.eqb_spec (f a) k'); [congruence | exact IH].
  - cbn [find]. destruct (f a =? k'); [reflexivity | exact IH].
Qed.

Section TourDeletion.

Variable onTourDelete : Z -> list CartItem -> option (list CartItem).

(** X19. Only an administrator deletes a tour. Without a session, or with a
    session of another role, the answer is 403 and the database is left as
    it was.  For an administrator either the storage layer refuses and the
    answer is 500 with the database as it was, or the answer is the
    redirect to / and the catalog then holds exactly the tours with another
    id, while users and carts are as they were. *)
Theorem delete_tour_admin_only session tourId db :
  (is_admin session = false ->
   post_delete_tour onTourDelete session tourId db = (forbidden, db))
  /\ (is_admin session = true ->
      post_delete_tour onTourDelete session tourId db
        = (Send 500 "Internal Server Error", db)
      \/ (fst (post_delete_tour onTourDelete session tourId db)
            = Plain (Redirect "/")
          /\ tour_exists (snd (post_delete_tour onTourDelete session tourId db))
                         tourId = false
          /\ tours (snd (post_delete_tour onTourDelete session tourId db))
             = filter (fun t => negb (tour_id t =? tourId)) (tours db)
          /\ users (snd (post_delete_tour onTourDelete session tourId db))
             = users db
          /\ carts (snd (post_delete_tour onTourDelete session tourId db))
             = carts db)).
Proof.
  unfold post_delete_tour, requireRole, is_admin. split.
  - destruct session as [u|]; [|reflexivity].
    intros H. now rewrite H.
  - destruct session as [u|]; [|discriminate].
    intros H. rewrite H. cbn [negb].
    unfold try_catch, bind, Tour_destroy, ret.
    destruct (tour_exists db tourId) eqn:Hex.
    + destruct (onTourDelete tourId (cartItems db)) as [ls|];
        [right | left; reflexivity].
      cbn [fst snd tours users carts]. repeat split.
      unfold tour_exists. cbn [tours]. apply existsb_filter_out.
    + right. cbn [fst snd]. repeat split; [exact Hex|].
      symmetry. apply filter_all.
      erewrite <- Hex. unfold tour_exists. clear Hex.
      induction (tours db) as [|a l IH]; [reflexivity|].
      cbn [existsb]. now rewrite negb_involutive, IH.
Qed.

(** X20. After an administrator has deleted a tour, under either usual
    referential action (the tour's lines go with it, or the lines are left
    alone), the cart page of every user lists the rows it listed before
    except those of the deleted tour. *)
Theorem deleted_tour_leaves_cart_pages session tourId db uid :
  is_admin session = true ->
  (forall ls, onTourDelete tourId ls = cascade_lines tourId ls)
  \/ (forall ls, onTourDelete tourId ls = keep_lines tourId ls) ->
  cart_items (snd (post_delete_tour onTourDelete session tourId db)) uid
  = filter (fun row => negb (tour_id (row_tour row) =? tourId))
           (cart_items db uid).
Proof.
  intros Hadmin Haction.
  unfold post_delete_tour, requireRole, is_admin in *.
  destruct session as [u|]; [|discriminate]. rewrite Hadmin. cbn [negb].
  rewrite snd_try_catch. unfold bind, Tour_destroy, ret.
  assert (Hrows : forall c ls,
    ls = cartItems db \/ ls = filter (fun l => negb (TourId l =? tourId)) (cartItems db) ->
    flat_map
      (fun l =>
         if CartId l =? cart_id c then
           match find (fun t => tour_id t =? TourId l)
                      (filter (fun t => negb (tour_id t =? tourId)) (tours db)) with
           | Some t => [mkCartRow t (quantity l)]
           | None => []
           end
         else [])
      ls
    = filter (fun row => negb (tour_id (row_tour row) =? tourId))
             (cartTours db c)).
  { intros c ls Hls. unfold cartTours, findTour.
    assert (Hgen : forall items,
      flat_map
        (fun l =>
           if CartId l =? cart_id c then
             match find (fun t => tour_id t =? TourId l)
                        (filter (fun t => negb (tour_id t =? tourId)) (tours db)) with
             | Some t => [mkCartRow t (quantity l)]
             | None => []
             end
           else [])
        items
      = filter (fun row => negb (tour_id (row_tour row) =? tourId))
          (flat_map
             (fun l =>
                if CartId l =? cart_id c then
                  match find (fun t => tour_id t =? TourId l) (tours db) with
                  | Some t => [mkCartRow t (quantity l)]
                  | None => []
                  end
                else [])
             items)
      /\ flat_map
           (fun l =>
              if CartId l =? cart_id c then
                match find (fun t => tour_id t =? TourId l)
                           (filter (fun t => negb (tour_id t =? tourId)) (tours db)) with
                | Some t => [mkCartRow t (quantity l)]
                | None => []
                end
              else [])
           (filter (fun l => negb (TourId l =? tourId)) items)
         = flat_map
             (fun l =>
                if CartId l =? cart_id c then
                  match find (fun t => tour_id t =? TourId l)
                             (filter (fun t => negb (tour_id t =? tourId)) (tours db)) with
                  | Some t => [mkCartRow t (quantity l)]
                  | None => []
                  end
                else [])
             items).
    { induction items as [|l items [IH1 IH2]]; [split; reflexivity|].
      cbn [flat_map filter].
      destruct (Z.eqb_spec (TourId l) tourId) as [E|N]; cbn [negb].
      - (* a line of the deleted tour *)
        assert (find (fun t => tour_id t =? TourId l)
                     (filter (fun t => negb (tour_id t =? tourId)) (tours db))
                = None) as Hgone.
        { rewrite E. apply existsb_false_find_none. apply existsb_filter_out. }
        rewrite Hgone. split.
        + rewrite filter_app, <- IH1.
          destruct (CartId l =? cart_id c); [|reflexivity].
          destruct (find (fun t => tour_id t =? TourId l) (tours db)) as [t|] eqn:Hf;
            [|reflexivity].
          apply find_some in Hf. destruct Hf as [_ Hid].
          cbn [filter row_tour]. apply Z.eqb_eq in Hid.
          rewrite Hid, E, Z.eqb_refl. reflexivity.
        + rewrite IH2. destruct (CartId l =? cart_id c); reflexivity.
      - rewrite (find_filter_other tour_id tourId (TourId l) (tours db) N).
        split.
        + rewrite filter_app, <- IH1. f_equal.
          destruct (CartId l =? cart_id c); [|reflexivity].
          destruct (find (fun t => tour_id t =? TourId l) (tours db)) as [t|] eqn:Hf;
            [|reflexivity].
          apply find_some in Hf. destruct Hf as [_ Hid].
          cbn [filter row_tour]. apply Z.eqb_eq in Hid.
          destruct (Z.eqb_spec (tour_id t) tourId); [congruence|reflexivity].
        + cbn [flat_map].
          rewrite (find_filter_other tour_id tourId (TourId l) (tours db) N).
          now rewrite IH2. }
    destruct Hls as [->| ->].
    - apply Hgen.
    - destruct (Hgen (cartItems db)) as [H1 H2]. now rewrite H2. }
  unfold cart_items.
  destruct (tour_exists db tourId) eqn:Hex.
  - assert (exists ls, onTourDelete tourId (cartItems db) = Some ls
                       /\ (ls = cartItems db
                           \/ ls = filter (fun l => negb (TourId l =? tourId))
                                          (cartItems db))) as (ls & Hon & Hls).
    { destruct Haction as [H|H]; rewrite H.
      - exists (filter (fun l => negb (TourId l =? tourId)) (cartItems db)).
        split; [reflexivity | now right].
      - exists (cartItems db). split; [reflexivity | now left]. }
    rewrite Hon. cbn [snd].
    change (userCart (mkDB (users db)
                        (filter (fun t => negb (tour_id t =? tourId)) (tours db))
                        (carts db) ls (nextUserId db) (nextCartId db)
                        (nextItemId db)) uid)
      with (userCart db uid).
    destruct (userCart db uid) as [c|]; [|reflexivity].
    exact (Hrows c ls Hls).
  - cbn [snd]. destruct (userCart db uid) as [c|]; [|reflexivity].
    (* no tour has the id: no row shows it *)
    clear Hrows. symmetry. apply filter_all.
    unfold cartTours.
    induction (cartItems db) as [|l items IH]; [reflexivity|].
    cbn [flat_map]. rewrite existsb_app, IH, orb_false_r.
    destruct (CartId l =? cart_id c); [|reflexivity].
    destruct (findTour db (TourId l)) as [t|] eqn:Hf; [|reflexivity].
    cbn [existsb row_tour]. rewrite orb_false_r, negb_involutive.
    unfold findTour in Hf. apply find_some in Hf. destruct Hf as [Hin _].
    destruct (Z.eqb_spec (tour_id t) tourId) as [E|_]; [|reflexivity].
    assert (tour_exists db tourId = true) as Hyes; [|congruence].
    unfold tour_exists. apply existsb_exists. exists t.
    split; [exact Hin | now apply Z.eqb_eq].
Qed.

End TourDeletion.

(** ** The further properties on the sample data *)

Lemma add_keeps_one_cart_per_user_witness :
  one_cart_per_user
    (snd (post_cart_add strict_storage (Some boris_session) 1 anna_cart_db))
  = true.
Proof.
  apply (add_keeps_one_cart_per_user strict_storage (Some boris_session) 1
           anna_cart_db).
  reflexivity.
Defined.

Lemma cart_handlers_keep_one_line_per_pair_witness :
  one_line_per_pair
    (snd (post_cart_add strict_storage (Some anna_session) 1 anna_cart_db)) = true
  /\ one_line_per_pair
       (snd (post_cart_remove (Some anna_session) 2 anna_cart_db)) = true.
Proof.
  apply (cart_handlers_keep_one_line_per_pair strict_storage
           (Some anna_session) 1 2 anna_cart_db).
  reflexivity.
Defined.

Lemma cart_handlers_keep_quantities_positive_witness :
  quantities_positive
    (snd (post_cart_add lax_storage (Some anna_session) 1 anna_cart_db)) = true
  /\ quantities_positive
       (snd (post_cart_remove (Some anna_session) 2 anna_cart_db)) = true.
Proof.
  apply (cart_handlers_keep_quantities_positive lax_storage
           (Some anna_session) 1 2 anna_cart_db).
  reflexivity.
Defined.

Lemma cart_handlers_keep_references_witness :
  (lines_in_carts
     (snd (post_cart_add strict_storage (Some boris_session) 2 anna_cart_db))
   = true
   /\ lines_in_carts (snd (post_cart_remove (Some boris_session) 1 anna_cart_db))
      = true)
  /\ (lines_on_tours
        (snd (post_cart_add strict_storage (Some boris_session) 99 anna_cart_db))
      = true
      /\ lines_on_tours
           (snd (post_cart_remove (Some boris_session) 1 anna_cart_db)) = true).
Proof.
  split.
  - apply (proj1 (cart_handlers_keep_references strict_storage
                    (Some boris_session) 2 1 anna_cart_db)).
    reflexivity.
  - apply (proj2 (cart_handlers_keep_references strict_storage
                    (Some boris_session) 99 1 anna_cart_db));
      reflexivity.
Defined.

Lemma cart_handlers_keep_keys_witness :
  keys_ok (snd (post_cart_add strict_storage (Some boris_session) 2 anna_cart_db))
    = true
  /\ keys_ok (snd (post_cart_remove (Some anna_session) 1 anna_cart_db)) = true.
Proof.
  apply (cart_handlers_keep_keys strict_storage (Some boris_session) 2 1
           anna_cart_db).
  reflexivity.
Defined.

Lemma add_leaves_other_carts_alone_witness :
  fst (get_cart (Some anna_session)
         (snd (post_cart_add strict_storage (Some boris_session) 1 anna_cart_db)))
  = fst (get_cart (Some anna_session) anna_cart_db).
Proof.
  apply (add_leaves_other_carts_alone strict_storage boris_session anna_session
           1 anna_cart_db); [reflexivity | discriminate].
Defined.

Lemma remove_absent_line_is_noop_witness :
  post_cart_remove (Some anna_session) 9 anna_cart_db
  = (cart_remove_ok, anna_cart_db).
Proof.
  apply (remove_absent_line_is_noop anna_session 9 anna_cart_db). reflexivity.
Defined.

Lemma add_then_remove_restores_lines_witness :
  cartItems
    (snd (post_cart_remove (Some boris_session) 3
            (snd (post_cart_add strict_storage (Some boris_session) 1
                    anna_cart_db))))
  = [mkCartItem 1 2 1 1; mkCartItem 2 1 1 2].
Proof.
  apply (add_then_remove_restores_lines strict_storage boris_session 1
           anna_cart_db); reflexivity.
Defined.

Lemma add_shows_on_cart_page_witness :
  fst (get_cart (Some boris_session)
         (snd (post_cart_add strict_storage (Some boris_session) 2 anna_cart_db)))
  = Render 200
      (CartPage ([] ++ [mkCartRow tourB 1])
                (PrimFloat.add (reduce_total []) (PrimFloat.mul 50%float 1%float))
                boris_session "Корзина").
Proof.
  apply (add_shows_on_cart_page strict_storage boris_session 2 tourB
           anna_cart_db); reflexivity.
Defined.

Lemma account_handlers_keep_accounts_ok_witness :
  accounts_ok
    (snd (post_register sample_hash tt (mkCredentials "carol" "pw") fresh_db))
  = true
  /\ accounts_ok
       (snd (post_profile_update sample_hash sample_compare tt
               (Some anna_session) (mkProfileForm "anna2" "secret" "new")
               fresh_db))
     = true.
Proof.
  apply (account_handlers_keep_accounts_ok unit sample_hash sample_compare tt
           (mkCredentials "carol" "pw") (Some anna_session)
           (mkProfileForm "anna2" "secret" "new") fresh_db).
  reflexivity.
Defined.

Lemma register_then_login_witness :
  fst (post_register sample_hash tt (mkCredentials "carol" "pw") fresh_db)
    = Redirect "/login"
  /\ post_login sample_compare None (mkCredentials "carol" "pw")
       (snd (post_register sample_hash tt (mkCredentials "carol" "pw") fresh_db))
     = ((Redirect "/", Some (mkSessionUser 3 "carol" "client")),
        snd (post_register sample_hash tt (mkCredentials "carol" "pw") fresh_db)).
Proof.
  apply (register_then_login unit sample_hash sample_compare tt
           (mkCredentials "carol" "pw") None fresh_db); reflexivity.
Defined.

Lemma password_change_round_trip_witness :
  (sample_compare "new" (sample_hash "new" 10 tt) = true ->
   post_login sample_compare None (mkCredentials "anna2" "new")
     (snd (post_profile_update sample_hash sample_compare tt
             (Some anna_session) (mkProfileForm "anna2" "secret" "new")
             fresh_db))
   = ((Redirect "/", Some (mkSessionUser 1 "anna2" "client")),
      snd (post_profile_update sample_hash sample_compare tt
             (Some anna_session) (mkProfileForm "anna2" "secret" "new")
             fresh_db)))
  /\ (forall old,
        sample_compare old (sample_hash "new" 10 tt) = false ->
        post_login sample_compare None (mkCredentials "anna2" old)
          (snd (post_profile_update sample_hash sample_compare tt
                  (Some anna_session) (mkProfileForm "anna2" "secret" "new")
                  fresh_db))
        = ((login_rejected, None),
           snd (post_profile_update sample_hash sample_compare tt
                  (Some anna_session) (mkProfileForm "anna2" "secret" "new")
                  fresh_db))).
Proof.
  apply (password_change_round_trip unit sample_hash sample_compare tt
           anna_session (mkProfileForm "anna2" "secret" "new") fresh_db anna
           None); reflexivity.
Defined.

Lemma interleaved_adds_keep_one_line_per_pair_witness :
  one_line_per_pair
    (snd (run_schedule strict_storage [0; 1; 0; 1; 0; 1]%nat
            [new_request 1 1; new_request 1 1] anna_empty_cart_db)) = true
  /\ forall u tid,
       (Datatypes.length
          (linesFor
             (snd (run_schedule strict_storage [0; 1; 0; 1; 0; 1]%nat
                     [new_request 1 1; new_request 1 1] anna_empty_cart_db))
             u tid) <= 1)%nat.
Proof.
  apply (interleaved_adds_keep_one_line_per_pair strict_storage
           [0; 1; 0; 1; 0; 1]%nat [new_request 1 1; new_request 1 1]
           anna_empty_cart_db); reflexivity.
Defined.

Lemma interleaved_adds_keep_quantities_and_keys_witness :
  quantities_positive
    (snd (run_schedule lax_storage [0; 1; 0; 1; 0; 1; 0; 1]%nat
            (map (fun ut => new_request (fst ut) (snd ut)) [(1, 1); (1, 1)])
            anna_cart_db)) = true
  /\ keys_ok
       (snd (run_schedule lax_storage [0; 1; 0; 1; 0; 1; 0; 1]%nat
               (map (fun ut => new_request (fst ut) (snd ut)) [(1, 1); (1, 1)])
               anna_cart_db)) = true.
Proof.
  apply (interleaved_adds_keep_quantities_and_keys lax_storage
           [0; 1; 0; 1; 0; 1; 0; 1]%nat [(1, 1); (1, 1)] anna_cart_db);
    reflexivity.
Defined.

Lemma deleted_tour_leaves_cart_pages_witness :
  cart_items
    (snd (post_delete_tour cascade_lines (Some admin_session) 1 anna_cart_db)) 1
  = [mkCartRow tourB 1].
Proof.
  apply (deleted_tour_leaves_cart_pages cascade_lines (Some admin_session) 1
           anna_cart_db 1); [reflexivity | left; intros; reflexivity].
Defined.

(** A client is refused, an administrator deletes the tour. *)
Example delete_tour_on_sample :
  post_delete_tour cascade_lines (Some anna_session) 1 anna_cart_db
    = (forbidden, anna_cart_db)
  /\ post_delete_tour cascade_lines (Some admin_session) 1 anna_cart_db
     = (Plain (Redirect "/"),
        mkDB [anna; boris] [tourB] [mkCart 1 1] [mkCartItem 2 1 1 2] 3 2 3).
Proof. split; reflexivity. Qed.

(** ** When the add handler fails *)

Section AddFailures.

Lemma cart_add_line_unique_irrelevant fk c tid db :
  cart_add_line (mkStorageOptions fk true) c tid db
  = cart_add_line (mkStorageOptions fk false) c tid db.
Proof.
  unfold cart_add_line, bind, CartItem_findOne, CartItem_create, ret.
  cbn [foreignKeys throughUnique].
  destruct (find (line_matches (cart_id c) tid) (cartItems db)) as [l|] eqn:Hf;
    [reflexivity|].
  rewrite (find_none_existsb _ _ Hf). reflexivity.
Qed.

(** X11. For requests that do not interleave the unique pair of the through
    table never decides anything: the handler inserts a line only after it
    has found none for the pair, so it answers and writes the same whether
    or not the storage layer enforces the pair. *)
Theorem unique_pair_never_fires_sequentially fk session tid db :
  post_cart_add (mkStorageOptions fk true) session tid db
  = post_cart_add (mkStorageOptions fk false) session tid db.
Proof.
  destruct session as [su|]; [|reflexivity].
  unfold post_cart_add, requireAuth, try_catch.
  rewrite !cart_add_body_split.
  destruct (userCart db (session_id su)) as [c|].
  - now rewrite cart_add_line_unique_irrelevant.
  - unfold bind, Cart_create. cbn [foreignKeys].
    destruct (fk && negb (user_exists db (session_id su))); [reflexivity|].
    now rewrite cart_add_line_unique_irrelevant.
Qed.

Variable opts : StorageOptions.

Lemma cart_add_line_failure c tid db :
  cart_exists db (cart_id c) = true ->
  (exists db', cart_add_line opts c tid db = (Returned cart_add_ok, db'))
  \/ (cart_add_line opts c tid db = (Thrown ForeignKeyConstraintError, db)
      /\ foreignKeys opts = true /\ tour_exists db tid = false).
Proof.
  intros Hc.
  unfold cart_add_line, bind, CartItem_findOne, CartItem_create,
    cartItem_update, ret.
  destruct (find (line_matches (cart_id c) tid) (cartItems db)) as [l|] eqn:Hf.
  - left. eexists. reflexivity.
  - rewrite Hc, (find_none_existsb _ _ Hf), andb_false_r. cbn [andb].
    destruct (foreignKeys opts); cbn [andb].
    + destruct (tour_exists db tid); cbn [negb].
      * left. eexists. reflexivity.
      * right. auto.
    + left. eexists. reflexivity.
Qed.

(** X12. A signed-in add that runs with no other request between its
    storage calls answers with the success payload, or with the failure
    payload; and it fails only when the storage layer enforces foreign
    keys and the user or the tour is not stored.  When the failure is the
    missing tour the cart may have been created all the same.  Interleaved
    adds are not covered: one of them can be refused on the unique pair. *)
Theorem add_fails_only_on_foreign_keys su tid db :
  fst (post_cart_add opts (Some su) tid db) = cart_add_ok
  \/ (fst (post_cart_add opts (Some su) tid db) = cart_add_failed
      /\ foreignKeys opts = true
      /\ (user_exists db (session_id su) = false
          \/ tour_exists db tid = false)).
Proof.
  unfold post_cart_add, requireAuth, try_catch.
  rewrite cart_add_body_split.
  destruct (userCart db (session_id su)) as [c|] eqn:Hc.
  - destruct (cart_add_line_failure c tid db (userCart_exists _ _ _ Hc))
      as [[db' E] | (E & Hfk & Ht)]; rewrite E; cbn [fst]; auto.
  - unfold bind, Cart_create.
    destruct (foreignKeys opts) eqn:Hfk; cbn [andb].
    + destruct (user_exists db (session_id su)) eqn:Hu; cbn [negb].
      * set (c := mkCart (nextCartId db) (session_id su)).
        set (db1 := set_carts db (carts db ++ [c]) (nextCartId db + 1)).
        assert (Hex : cart_exists db1 (cart_id c) = true).
        { unfold cart_exists, db1. cbn [set_carts carts].
          rewrite existsb_app. cbn. rewrite Z.eqb_refl. apply orb_true_r. }
        destruct (cart_add_line_failure c tid db1 Hex)
          as [[db' E] | (E & _ & Ht)]; rewrite E; cbn [fst]; auto.
      * right. auto.
    + set (c := mkCart (nextCartId db) (session_id su)).
      set (db1 := set_carts db (carts db ++ [c]) (nextCartId db + 1)).
      assert (Hex : cart_exists db1 (cart_id c) = true).
      { unfold cart_exists, db1. cbn [set_carts carts].
        rewrite existsb_app. cbn. rewrite Z.eqb_refl. apply orb_true_r. }
      destruct (cart_add_line_failure c tid db1 Hex)
        as [[db' E] | (E & Hfk' & _)]; rewrite E; cbn [fst]; auto.
      congruence.
Qed.

End AddFailures.

Lemma registered_user_cannot_delete_tours_witness :
  post_delete_tour cascade_lines
    (snd (fst (post_login sample_compare None (mkCredentials "carol" "pw")
                 (snd (post_register sample_hash tt (mkCredentials "carol" "pw")
                         fresh_db)))))
    1
    (snd (post_register sample_hash tt (mkCredentials "carol" "pw") fresh_db))
  = (forbidden,
     snd (post_register sample_hash tt (mkCredentials "carol" "pw") fresh_db)).
Proof.
  apply (registered_user_cannot_delete_tours unit sample_hash sample_compare
           cascade_lines tt (mkCredentials "carol" "pw") None 1 fresh_db);
    reflexivity.
Defined.

(** Two first adds of one user that interleave between [Cart.findOne] and
    [Cart.create] both create a cart. *)
Example interleaved_first_adds_make_two_carts :
  carts
    (snd (run_schedule strict_storage [0; 1; 0; 1; 0; 1; 0; 1]%nat
            [new_request 1 1; new_request 1 1] fresh_db))
  = [mkCart 1 1; mkCart 2 1]
  /\ one_cart_per_user
       (snd (run_schedule strict_storage [0; 1; 0; 1; 0; 1; 0; 1]%nat
               [new_request 1 1; new_request 1 1] fresh_db)) = false.
Proof. split; reflexivity. Qed.
